(** * Population visualizer: the merge-and-boundary engine of [App.tsx]

    A shallow embedding of the data path of [src/App.tsx], [src/types.ts]
    and [src/components/PopulationChart.tsx], and the properties of the
    Row Normalizer, the Series Index, the Forecast Merger and the View
    State Controller that the specification states about it.

    Conventions of the embedding.
    - JavaScript strings are [string]; every [ascii] stands for one code
      unit, so [String.compare] is the code-unit order used by
      [Array.prototype.sort] without a comparator.
    - The numbers the code computes with ([year], [pop], [iso_num]) are
      integers ([Z]); [lifeExp] and [gdpPercap] are only carried along and
      are rationals ([Q]).  NaN and the infinities are outside the model.
    - React state is a record; every [setX] is a record update.  The body
      of the [async] handler is cut at its single [await]: the part before
      it returns the request it issues together with the values the closure
      captured, the part after it consumes the oracle's outcome. *)

From Stdlib Require Import List ZArith QArith String Ascii Bool Lia.
From Stdlib Require Import Sorted Permutation.
Import ListNotations.

Local Open Scope Z_scope.
Local Open Scope string_scope.
Local Open Scope list_scope.

(** ** JavaScript values and library functions used by the source *)

Module JS.

(** A cell as PapaParse yields it with [dynamicTyping: true]: a missing key
    reads as [undefined], an empty field is [null], [true]/[false] become
    booleans, numeric fields become numbers, anything else stays a string. *)
Inductive Val : Type :=
| VUndefined
| VNull
| VBool (b : bool)
| VNum (q : Q)
| VStr (s : string).

(** ToBoolean. *)
Definition truthy (v : Val) : bool :=
  match v with
  | VUndefined | VNull => false
  | VBool b => b
  | VNum q => negb (Qeq_bool q 0)
  | VStr s => negb (String.eqb s EmptyString)
  end.

(** A field is present when its key exists and holds a value. *)
Definition present (v : Val) : bool :=
  match v with
  | VUndefined | VNull => false
  | _ => true
  end.

(** [s || d] and [n || d] at the types [string] and [number]. *)
Definition str_or (s d : string) : string :=
  if String.eqb s EmptyString then d else s.

Definition num_or (n d : Z) : Z :=
  if Z.eqb n 0 then d else n.

(** [Math.max(x, ...xs)], applied to at least one argument. *)
Definition math_max (x : Z) (xs : list Z) : Z := fold_left Z.max xs x.

(** [arr.slice(-n)]: the last [n] elements, all of them when there are
    fewer. *)
Definition slice_last {A : Type} (n : nat) (l : list A) : list A :=
  skipn (List.length l - n) l.

Section Sort.
Context {A : Type}.
(** The comparator: negative, zero or positive. *)
Variable cmp : A -> A -> Z.

(** [Array.prototype.sort] is stable.  Elements are inserted from the
    right, each one in front of the first element it does not exceed, so
    among equal keys the input order is kept. *)
Fixpoint insert (x : A) (l : list A) : list A :=
  match l with
  | [] => [x]
  | y :: t => if Z.leb (cmp x y) 0 then x :: y :: t else y :: insert x t
  end.

Fixpoint sort (l : list A) : list A :=
  match l with
  | [] => []
  | x :: t => insert x (sort t)
  end.
End Sort.

(** The comparison of [sort()] without a comparator, on strings. *)
Definition default_cmp (a b : string) : Z :=
  match String.compare a b with
  | Lt => -1
  | Eq => 0
  | Gt => 1
  end.

(** [new Set(xs)] spread back into an array: elements in the order of
    their first insertion; adding a member again changes nothing. *)
Fixpoint set_add_all (seen xs : list string) : list string :=
  match xs with
  | [] => seen
  | x :: t =>
      if existsb (String.eqb x) seen then set_add_all seen t
      else set_add_all (seen ++ [x]) t
  end.

Definition set_of (xs : list string) : list string := set_add_all [] xs.

End JS.

(** ** [types.ts] *)

Record GapminderData : Type := mkRow {
  country : string;
  continent : string;
  year : Z;
  lifeExp : Q;
  pop : Z;
  gdpPercap : Q;
  iso_alpha : string;
  iso_num : Z;
  predicted : option bool   (* [predicted?: boolean] *)
}.

(** [d.predicted] in a boolean position; [undefined] is falsy. *)
Definition is_predicted (d : GapminderData) : bool :=
  match predicted d with
  | Some b => b
  | None => false
  end.

(** A record of the parsed file before any typing: one cell per column of
    the header. *)
Record RawRecord : Type := mkRaw {
  raw_country : JS.Val;
  raw_continent : JS.Val;
  raw_year : JS.Val;
  raw_lifeExp : JS.Val;
  raw_pop : JS.Val;
  raw_gdpPercap : JS.Val;
  raw_iso_alpha : JS.Val;
  raw_iso_num : JS.Val
}.

(** What line 41 reads of a row: [row.country], [row.year], [row.pop].
    [Papa.parse<GapminderData>] only asserts the row type, so the filter
    runs on untyped records as well as on typed ones. *)
Class RowFields (R : Type) : Type := {
  get_country : R -> JS.Val;
  get_year : R -> JS.Val;
  get_pop : R -> JS.Val
}.

#[export] Instance RawRecord_fields : RowFields RawRecord := {|
  get_country := raw_country;
  get_year := raw_year;
  get_pop := raw_pop
|}.

#[export] Instance GapminderData_fields : RowFields GapminderData := {|
  get_country := fun d => JS.VStr (country d);
  get_year := fun d => JS.VNum (inject_Z (year d));
  get_pop := fun d => JS.VNum (inject_Z (pop d))
|}.

(** ** [App.tsx]: the Row Normalizer (line 41) *)

Definition valid_row {R : Type} `{RowFields R} (row : R) : bool :=
  JS.truthy (get_country row) && JS.truthy (get_year row)
  && JS.truthy (get_pop row).

Definition validData {R : Type} `{RowFields R} (results_data : list R) : list R :=
  filter valid_row results_data.

(** ** [App.tsx]: the Series Index (lines 44 and 147-151) *)

Definition uniqueCountries (valid : list GapminderData) : list string :=
  JS.sort JS.default_cmp (JS.set_of (map country valid)).

Definition by_year (a b : GapminderData) : Z := year a - year b.

Definition filteredData (data : list GapminderData) (selectedCountry : string)
  : list GapminderData :=
  JS.sort by_year (filter (fun item => String.eqb (country item) selectedCountry) data).

(** Lines 153-156; [None] is [undefined]. *)
Definition lastHistoricalYear (filtered : list GapminderData) : option Z :=
  match filter (fun d => negb (is_predicted d)) filtered with
  | [] => None
  | d :: rest => Some (JS.math_max (year d) (map year rest))
  end.

(** ** [PopulationChart.tsx], line 79: when the "Prediction" area is drawn *)

Definition reference_area_drawn (data : list GapminderData)
  (lastHistoricalYear : option Z) : bool :=
  match lastHistoricalYear with
  | None => false
  | Some y => negb (Z.eqb y 0) && existsb is_predicted data
  end.

(** ** [App.tsx]: the component state and its handlers *)

Module App.

Record State : Type := mkState {
  data : list GapminderData;
  originalData : list GapminderData;
  countries : list string;
  selectedCountry : string;
  loading : bool;
  error : option string;
  showPrediction : bool;
  predicting : bool
}.

(** Lines 12-19. *)
Definition initial : State :=
  mkState [] [] [] "Canada" true None false false.

Definition setData (v : list GapminderData) (st : State) : State :=
  mkState v (originalData st) (countries st) (selectedCountry st)
    (loading st) (error st) (showPrediction st) (predicting st).

Definition setOriginalData (v : list GapminderData) (st : State) : State :=
  mkState (data st) v (countries st) (selectedCountry st)
    (loading st) (error st) (showPrediction st) (predicting st).

Definition setCountries (v : list string) (st : State) : State :=
  mkState (data st) (originalData st) v (selectedCountry st)
    (loading st) (error st) (showPrediction st) (predicting st).

Definition setSelectedCountry (v : string) (st : State) : State :=
  mkState (data st) (originalData st) (countries st) v
    (loading st) (error st) (showPrediction st) (predicting st).

Definition setLoading (v : bool) (st : State) : State :=
  mkState (data st) (originalData st) (countries st) (selectedCountry st)
    v (error st) (showPrediction st) (predicting st).

Definition setError (v : option string) (st : State) : State :=
  mkState (data st) (originalData st) (countries st) (selectedCountry st)
    (loading st) v (showPrediction st) (predicting st).

Definition setShowPrediction (v : bool) (st : State) : State :=
  mkState (data st) (originalData st) (countries st) (selectedCountry st)
    (loading st) (error st) v (predicting st).

Definition setPredicting (v : bool) (st : State) : State :=
  mkState (data st) (originalData st) (countries st) (selectedCountry st)
    (loading st) (error st) (showPrediction st) v.

(** What is thrown: an [Error] with its message, or some other value. *)
Inductive Thrown : Type :=
| ThrownError (message : string)
| ThrownOther.

(** [err instanceof Error ? err.message : 'An unknown error occurred'] *)
Definition message_of (e : Thrown) : string :=
  match e with
  | ThrownError m => m
  | ThrownOther => "An unknown error occurred"
  end.

(** *** [fetchData], lines 21-59 *)

Inductive FetchOutcome : Type :=
| HttpNotOk (status : string)     (* [!response.ok]; the status in decimal *)
| FetchThrew (e : Thrown)         (* [fetch] or [response.text] rejects *)
| ParseErrors                     (* [results.errors.length] is not 0 *)
| ParseFailed                     (* the [error] callback *)
| Parsed (results_data : list GapminderData).

Definition fetchData_begin (st : State) : State :=
  setError None (setLoading true st).

Definition fetchData_catch (e : Thrown) (st : State) : State :=
  setLoading false
    (setError (Some (String.append "Failed to fetch data: " (message_of e))) st).

Definition fetchData_end (o : FetchOutcome) (st : State) : State :=
  match o with
  | HttpNotOk status =>
      fetchData_catch
        (ThrownError (String.append "HTTP error! status: " status)) st
  | FetchThrew e => fetchData_catch e st
  | ParseErrors => setLoading false (setError (Some "Error parsing CSV data.") st)
  | ParseFailed => setLoading false (setError (Some "Failed to parse CSV file.") st)
  | Parsed results_data =>
      let valid := validData results_data in
      setLoading false
        (setCountries (uniqueCountries valid)
           (setOriginalData valid (setData valid st)))
  end.

(** *** [handlePredictionToggle], lines 66-136 *)

(** A [{ year, pop }] object: an entry of [recentData], an item of the
    oracle's answer. *)
Record YearPop : Type := mkYearPop { yp_year : Z; yp_pop : Z }.

(** The holes of the template string of line 88, in order:
    [selectedCountry], [recentData], [lastYear + 1] and the literal 2025. *)
Record Prompt : Type := mkPrompt {
  prompt_country : string;
  prompt_recent : list YearPop;
  prompt_from : Z;
  prompt_to : Z
}.

(** What the suspended call keeps from its closure. *)
Record Pending : Type := mkPending {
  req_country : string;                      (* [selectedCountry] *)
  req_countryData : list GapminderData;      (* [countryData] *)
  req_prompt : Prompt
}.

Definition countryData (st : State) : list GapminderData :=
  filter (fun d => String.eqb (country d) (selectedCountry st)) (originalData st).

Definition recentData (countryData : list GapminderData) : list YearPop :=
  map (fun d => mkYearPop (year d) (pop d)) (JS.slice_last 10 countryData).

(** Lines 67-107: up to the [await].  The second component is the request
    handed to the oracle, if one is issued. *)
Definition handlePredictionToggle_begin (checked : bool) (st : State)
  : State * option Pending :=
  let st := setShowPrediction checked st in
  if negb checked then (setData (originalData st) st, None)
  else
    let st := setError None (setPredicting true st) in
    match countryData st with
    | [] =>
        (setPredicting false
           (setError
              (Some "No data available for this country to make a prediction.")
              st),
         None)
    | d :: rest =>
        let lastYear := JS.math_max (year d) (map year rest) in
        let prompt :=
          mkPrompt (selectedCountry st) (recentData (d :: rest))
            (lastYear + 1) 2025 in
        (st, Some (mkPending (selectedCountry st) (d :: rest) prompt))
    end.

(** The decoded answer: [JSON.parse] gives an array or something that is
    not an array.  The [responseSchema] of the request makes every item of
    an array an object with a numeric [year] and a numeric [pop]. *)
Inductive Json : Type :=
| JArray (items : list YearPop)
| JNotArray.

Inductive OracleOutcome : Type :=
| Rejected (e : Thrown)            (* [generateContent] rejects *)
| Unparsable (message : string)    (* [JSON.parse] throws a SyntaxError *)
| Decoded (v : Json).

(** Lines 114-124. *)
Definition newPredictedData (p : Pending) (predictedValues : list YearPop)
  : list GapminderData :=
  map (fun v =>
         mkRow (req_country p)
           (JS.str_or (match hd_error (req_countryData p) with
                       | Some d0 => continent d0
                       | None => EmptyString
                       end) EmptyString)
           (yp_year v) 0%Q (yp_pop v) 0%Q
           (JS.str_or (match hd_error (req_countryData p) with
                       | Some d0 => iso_alpha d0
                       | None => EmptyString
                       end) EmptyString)
           (JS.num_or (match hd_error (req_countryData p) with
                       | Some d0 => iso_num d0
                       | None => 0
                       end) 0)
           (Some true))
      predictedValues.

(** Line 126. *)
Definition merge (newPredicted : list GapminderData)
  (prevData : list GapminderData) : list GapminderData :=
  filter (fun d => negb (is_predicted d)) prevData ++ newPredicted.

(** Lines 128-132. *)
Definition handlePredictionToggle_catch (e : Thrown) (st : State) : State :=
  setShowPrediction false
    (setError
       (Some (String.append "Failed to generate prediction: " (message_of e)))
       st).

(** Lines 109-135: from the [await] on, on the state as it is when the
    answer arrives. *)
Definition handlePredictionToggle_resume (p : Pending) (o : OracleOutcome)
  (st : State) : State :=
  setPredicting false
    match o with
    | Rejected e => handlePredictionToggle_catch e st
    | Unparsable m => handlePredictionToggle_catch (ThrownError m) st
    | Decoded JNotArray =>
        handlePredictionToggle_catch
          (ThrownError "Prediction API did not return an array.") st
    | Decoded (JArray predictedValues) =>
        setData (merge (newPredictedData p predictedValues) (data st)) st
    end.

(** The working series shown to the chart, and its boundary. *)
Definition workingSeries (st : State) : list GapminderData :=
  filteredData (data st) (selectedCountry st).

Definition boundaryYear (st : State) : option Z :=
  lastHistoricalYear (workingSeries st).

End App.

(** ** The component over time: pending oracle calls, the effect of lines
    138-144 and the guards of the controls *)

Module Session.
Import App.

Record Sys : Type := mkSys {
  view : State;                 (* the committed React state *)
  inflight : list Pending       (* suspended [handlePredictionToggle] calls *)
}.

(** The dependency array [[selectedCountry, showPrediction]]. *)
Definition deps_changed (before after : State) : bool :=
  negb (String.eqb (selectedCountry before) (selectedCountry after))
  || negb (Bool.eqb (showPrediction before) (showPrediction after)).

Definition issued (req : option Pending) : list Pending :=
  match req with
  | Some p => [p]
  | None => []
  end.

(** After an update is committed the effect runs when a dependency
    changed, and calls [handlePredictionToggle(true)] when the box is
    checked. *)
Definition commit (before after : State) (pending : list Pending) : Sys :=
  if deps_changed before after && showPrediction after then
    let '(st, req) := handlePredictionToggle_begin true after in
    mkSys st (pending ++ issued req)
  else mkSys after pending.

(** [renderContent]: the selector and the checkbox are rendered when there
    is neither a spinner nor an error panel, and are disabled while
    [loading || predicting]. *)
Definition controls_enabled (st : State) : bool :=
  negb (loading st)
  && match error st with None => true | Some _ => false end
  && negb (predicting st).

(** The file behind [DATA_URL] has the eight Gapminder columns: no parsed
    row carries a [predicted] key. *)
Definition csv_rows (rows : list GapminderData) : bool :=
  forallb (fun d => match predicted d with None => true | Some _ => false end)
    rows.

Definition outcome_ok (o : FetchOutcome) : bool :=
  match o with
  | Parsed rows => csv_rows rows
  | _ => true
  end.

Definition drop_nth {A : Type} (k : nat) (l : list A) : list A :=
  firstn k l ++ skipn (S k) l.

Inductive Event : Type :=
| FetchReturns (o : FetchOutcome)     (* the pending [fetchData] finishes *)
| TryAgain                            (* the button of the error panel *)
| ToggleClick                         (* [onChange] of the checkbox *)
| SelectCountry (c : string)          (* [onCountryChange] *)
| OracleReturns (k : nat) (o : OracleOutcome).

Definition step (e : Event) (s : Sys) : option Sys :=
  let st := view s in
  match e with
  | FetchReturns o =>
      if loading st && outcome_ok o
      then Some (commit st (fetchData_end o st) (inflight s))
      else None
  | TryAgain =>
      match error st with
      | Some _ =>
          if loading st then None
          else Some (commit st (fetchData_begin st) (inflight s))
      | None => None
      end
  | ToggleClick =>
      if controls_enabled st then
        let '(st', req) :=
          handlePredictionToggle_begin (negb (showPrediction st)) st in
        Some (commit st st' (inflight s ++ issued req))
      else None
  | SelectCountry c =>
      if controls_enabled st && existsb (String.eqb c) (countries st)
      then Some (commit st (setSelectedCountry c st) (inflight s))
      else None
  | OracleReturns k o =>
      match nth_error (inflight s) k with
      | Some p =>
          Some (commit st (handlePredictionToggle_resume p o st)
                  (drop_nth k (inflight s)))
      | None => None
      end
  end.

Fixpoint run (es : list Event) (s : Sys) : option Sys :=
  match es with
  | [] => Some s
  | e :: rest =>
      match step e s with
      | Some s' => run rest s'
      | None => None
      end
  end.

(** On mount the effect finds the box unchecked and [fetchData] starts. *)
Definition start : Sys := mkSys (fetchData_begin initial) [].

Definition reachable (s : Sys) : Prop := exists es, run es start = Some s.

End Session.

(** ** Vocabulary of the statements *)

(** [l1] is [l2] with some elements left out: same elements, same order. *)
Inductive subseq {A : Type} : list A -> list A -> Prop :=
| subseq_nil : subseq [] []
| subseq_keep (x : A) (l1 l2 : list A) :
    subseq l1 l2 -> subseq (x :: l1) (x :: l2)
| subseq_drop (x : A) (l1 l2 : list A) :
    subseq l1 l2 -> subseq l1 (x :: l2).

(** A cell that holds the number zero, the other falsy value of a present
    numeric field. *)
Definition is_zero (v : JS.Val) : bool :=
  match v with
  | JS.VNum q => Qeq_bool q 0
  | _ => false
  end.

Definition not_predicted (d : GapminderData) : bool := negb (is_predicted d).

(** The order a comparator sorts by: [x] may come before [y]. *)
Definition le_of {A : Type} (cmp : A -> A -> Z) (x y : A) : Prop :=
  cmp x y <= 0.

(** Ascending code-unit order on strings, ascending order on years. *)
Definition str_le (a b : string) : Prop := String.leb a b = true.
Definition year_le (a b : GapminderData) : Prop := year a <= year b.

(** [m] is the largest year of [rows]. *)
Definition is_max_year (m : Z) (rows : list GapminderData) : Prop :=
  In m (map year rows) /\ forall r, In r rows -> year r <= m.


(** The rows of the working data set that are not tagged predicted are
    the rows of the loaded dataset. *)
Definition consistent (st : App.State) : Prop :=
  filter not_predicted (App.data st) = App.originalData st.

(** The oracle's answer cannot be merged: rejection, undecodable text or a
    decoded value that is not an array. *)
Definition is_failure (o : App.OracleOutcome) : bool :=
  match o with
  | App.Decoded (App.JArray _) => false
  | _ => true
  end.

(** Fail-closed reversion, in the specification's words: the box is
    unchecked and the working series is the historical series of the
    selected country. *)
Definition fail_closed (before after : App.State) : Prop :=
  App.showPrediction after = false
  /\ App.workingSeries after
     = filteredData (App.originalData before) (App.selectedCountry before).

(** ** Concrete inputs *)

Definition historical_row (c : string) (y p : Z) : GapminderData :=
  mkRow c "Americas" y 70 p 11000 "CAN" 124 None.

Definition zero_population_record : RawRecord :=
  mkRaw (JS.VStr "Atlantis") (JS.VStr "Europe") (JS.VNum 1952) (JS.VNum 40)
    (JS.VNum 0) (JS.VNum 100) (JS.VStr "ATL") (JS.VNum 999).


Definition loaded (rows : list GapminderData) : App.State :=
  App.fetchData_end (App.Parsed rows) (App.fetchData_begin App.initial).

Definition two_countries : list GapminderData :=
  [ historical_row "Canada" 2002 31902268;
    historical_row "Canada" 2007 33390141;
    mkRow "Chile" "Americas" 2002 77 15497046 10778 "CHL" 152 None;
    mkRow "Chile" "Americas" 2007 78 16284741 13171 "CHL" 152 None ].

Definition chile_only : list GapminderData :=
  [ mkRow "Chile" "Americas" 2002 77 15497046 10778 "CHL" 152 None;
    mkRow "Chile" "Americas" 2007 78 16284741 13171 "CHL" 152 None ].

(** The answer of end-to-end scenario 2. *)
Definition batch_2008_2025 : list App.YearPop :=
  [ App.mkYearPop 2008 34000000; App.mkYearPop 2025 40000000 ].

Definition batch_chile : list App.YearPop :=
  [ App.mkYearPop 2008 16500000; App.mkYearPop 2025 19000000 ].

(** Load, check the box (the click issues one request, the effect a
    second one), and let the first request succeed. *)
Definition first_answer_merged : list Session.Event :=
  [ Session.FetchReturns (App.Parsed two_countries);
    Session.ToggleClick;
    Session.OracleReturns 0 (App.Decoded (App.JArray batch_2008_2025)) ].

(** Then switch to Chile while the second Canadian request is still
    pending, and let Chile's request succeed. *)
Definition chile_forecast_shown : list Session.Event :=
  first_answer_merged
  ++ [ Session.SelectCountry "Chile";
       Session.OracleReturns 1 (App.Decoded (App.JArray batch_chile)) ].

(** The state a session is in after the events [es]. *)
Definition sys_after (es : list Session.Event) : Session.Sys :=
  match Session.run es Session.start with
  | Some s => s
  | None => Session.start
  end.

(** The second Canadian request, still pending after [first_answer_merged]
    and after [chile_forecast_shown]. *)
Definition pending_canada : App.Pending :=
  match Session.inflight (sys_after first_answer_merged) with
  | p :: _ => p
  | [] => App.mkPending EmptyString [] (App.mkPrompt EmptyString [] 0 0)
  end.

(** ** Vocabulary and inputs of the further properties *)

(** A load that ends in an error: anything but parsed rows. *)
Definition is_load_failure (o : App.FetchOutcome) : bool :=
  match o with
  | App.Parsed _ => false
  | _ => true
  end.

(** Every row of the loaded dataset passed the test of line 41. *)
Definition dataset_valid (st : App.State) : Prop :=
  Forall (fun d => valid_row d = true) (App.originalData st).

(** The countries offered by the selector are those of the loaded
    dataset. *)
Definition indexed (st : App.State) : Prop :=
  App.countries st = uniqueCountries (App.originalData st).

(** All rows tagged predicted carry one and the same country. *)
Definition single_forecast (st : App.State) : Prop :=
  exists c, Forall (fun r => country r = c) (filter is_predicted (App.data st)).

(** A dataset that already reaches beyond the horizon year. *)
Definition beyond_horizon : list GapminderData :=
  [ historical_row "Canada" 2020 38000000;
    historical_row "Canada" 2030 41000000 ].

(** The same countries as [two_countries], rows in another order and one
    of them twice. *)
Definition two_countries_shuffled : list GapminderData :=
  [ mkRow "Chile" "Americas" 2007 78 16284741 13171 "CHL" 152 None;
    historical_row "Canada" 2007 33390141;
    mkRow "Chile" "Americas" 2002 77 15497046 10778 "CHL" 152 None;
    historical_row "Canada" 2002 31902268;
    historical_row "Canada" 2007 33390141 ].

(** Load and check the box: two requests are pending. *)
Definition box_checked : list Session.Event :=
  [ Session.FetchReturns (App.Parsed two_countries); Session.ToggleClick ].

(** A dataset without the selected country: the click fails, the box
    stays checked, and the retry is under way. *)
Definition retry_under_way : list Session.Event :=
  [ Session.FetchReturns (App.Parsed chile_only);
    Session.ToggleClick;
    Session.TryAgain ].

(** The one event that replaces the dataset: a load that returns parsed
    rows. *)
Definition is_successful_load (e : Session.Event) : bool :=
  match e with
  | Session.FetchReturns (App.Parsed _) => true
  | _ => false
  end.

(** Uncheck the box while the second request of the click is pending. *)
Definition unchecked_with_pending_call : list Session.Event :=
  first_answer_merged ++ [ Session.ToggleClick ].

(** * Properties *)

(** ** The stable sort *)

Section SortFacts.
Context {A : Type}.
Variable cmp : A -> A -> Z.

Hypothesis le_total : forall x y, le_of cmp x y \/ le_of cmp y x.
Hypothesis le_trans : forall x y z, le_of cmp x y -> le_of cmp y z -> le_of cmp x z.

Lemma insert_perm (x : A) (l : list A) :
  Permutation (JS.insert cmp x l) (x :: l).
Proof.
  induction l as [|y t IH]; simpl.
  - apply Permutation_refl.
  - destruct (Z.leb (cmp x y) 0).
    + apply Permutation_refl.
    + apply Permutation_trans with (y :: x :: t).
      * now apply perm_skip.
      * apply perm_swap.
Qed.

Lemma sort_perm (l : list A) : Permutation (JS.sort cmp l) l.
Proof.
  induction l as [|x t IH]; simpl.
  - apply perm_nil.
  - apply Permutation_trans with (x :: JS.sort cmp t).
    + apply insert_perm.
    + now apply perm_skip.
Qed.

Lemma sort_In (l : list A) (x : A) : In x (JS.sort cmp l) <-> In x l.
Proof.
  split; apply Permutation_in.
  - apply sort_perm.
  - apply Permutation_sym, sort_perm.
Qed.

Lemma insert_first (x : A) (l : list A) :
  (forall z, In z l -> le_of cmp x z) -> JS.insert cmp x l = x :: l.
Proof.
  destruct l as [|y t]; simpl; intros Hall.
  - reflexivity.
  - assert (Hxy : le_of cmp x y) by (apply Hall; now left).
    apply Z.leb_le in Hxy. now rewrite Hxy.
Qed.

Lemma insert_sorted (x : A) (l : list A) :
  StronglySorted (le_of cmp) l -> StronglySorted (le_of cmp) (JS.insert cmp x l).
Proof.
  induction 1 as [|y t Hs IH Hy]; simpl.
  - repeat constructor.
  - destruct (Z.leb (cmp x y) 0) eqn:E.
    + apply Z.leb_le in E.
      constructor.
      * now constructor.
      * constructor; [exact E|].
        rewrite Forall_forall in Hy |- *.
        intros z Hz. apply le_trans with y; [exact E | now apply Hy].
    + apply Z.leb_gt in E.
      constructor; [exact IH|].
      rewrite Forall_forall in Hy |- *.
      intros z Hz.
      apply (Permutation_in _ (insert_perm x t)) in Hz.
      destruct Hz as [<-|Hz].
      * destruct (le_total y x) as [H|H]; [exact H|unfold le_of in H; lia].
      * now apply Hy.
Qed.

Lemma sort_sorted (l : list A) : StronglySorted (le_of cmp) (JS.sort cmp l).
Proof.
  induction l as [|x t IH]; simpl.
  - constructor.
  - now apply insert_sorted.
Qed.

(** Inserting and filtering commute on a sorted list. *)
Lemma filter_insert (P : A -> bool) (x : A) (l : list A) :
  StronglySorted (le_of cmp) l ->
  filter P (JS.insert cmp x l)
  = if P x then JS.insert cmp x (filter P l) else filter P l.
Proof.
  induction 1 as [|y t Hs IH Hy]; simpl.
  - now destruct (P x).
  - destruct (Z.leb (cmp x y) 0) eqn:E; simpl.
    + destruct (P x) eqn:Px, (P y) eqn:Py; simpl; rewrite ?E; try reflexivity.
      symmetry. apply insert_first.
      intros z Hz. apply filter_In in Hz as [Hz _].
      rewrite Forall_forall in Hy.
      apply le_trans with y; [now apply Z.leb_le | now apply Hy].
    + rewrite IH.
      destruct (P x) eqn:Px, (P y) eqn:Py; simpl; rewrite ?E; reflexivity.
Qed.

Lemma filter_sort (P : A -> bool) (l : list A) :
  filter P (JS.sort cmp l) = JS.sort cmp (filter P l).
Proof.
  induction l as [|x t IH]; simpl.
  - reflexivity.
  - rewrite filter_insert by apply sort_sorted.
    rewrite IH. now destruct (P x).
Qed.

(** Stability: the elements of one key class come out in input order.
    A key class is a predicate that no smaller element shares with a
    member. *)
Lemma filter_insert_class (P : A -> bool) (x : A) (l : list A) :
  (P x = true -> forall y, In y l -> 0 < cmp x y -> P y = false) ->
  filter P (JS.insert cmp x l) = filter P (x :: l).
Proof.
  induction l as [|y t IH]; simpl; intros Hcls.
  - reflexivity.
  - destruct (Z.leb (cmp x y) 0) eqn:E; simpl.
    + reflexivity.
    + apply Z.leb_gt in E.
      rewrite IH by (intros Px z Hz; apply Hcls; [exact Px | now right]).
      simpl. destruct (P x) eqn:Px; [|reflexivity].
      now rewrite (Hcls eq_refl y (or_introl eq_refl) E).
Qed.

Lemma sort_stable (P : A -> bool) (l : list A) :
  (forall x y, P x = true -> 0 < cmp x y -> P y = false) ->
  filter P (JS.sort cmp l) = filter P l.
Proof.
  intros Hcls. induction l as [|x t IH]; simpl.
  - reflexivity.
  - rewrite filter_insert_class by (intros Px y _; now apply Hcls).
    simpl. now rewrite IH.
Qed.
End SortFacts.

(** ** Orders used by the two sorts *)

Lemma by_year_total (a b : GapminderData) : by_year a b <= 0 \/ by_year b a <= 0.
Proof. unfold by_year. lia. Qed.

Lemma by_year_trans (a b c : GapminderData) :
  by_year a b <= 0 -> by_year b c <= 0 -> by_year a c <= 0.
Proof. unfold by_year. lia. Qed.

Lemma default_cmp_le (a b : string) : JS.default_cmp a b <= 0 <-> str_le a b.
Proof.
  unfold JS.default_cmp, str_le, String.leb.
  destruct (String.compare a b); split; intros H; try reflexivity; try lia;
    discriminate.
Qed.

Lemma default_cmp_total (a b : string) :
  JS.default_cmp a b <= 0 \/ JS.default_cmp b a <= 0.
Proof.
  rewrite !default_cmp_le. apply String.leb_total.
Qed.

Lemma ascii_compare_cases (a b : ascii) :
  (Ascii.compare a b = Lt /\ (N_of_ascii a < N_of_ascii b)%N)
  \/ (Ascii.compare a b = Eq /\ N_of_ascii a = N_of_ascii b)
  \/ (Ascii.compare a b = Gt /\ (N_of_ascii b < N_of_ascii a)%N).
Proof.
  unfold Ascii.compare.
  destruct (N.compare_spec (N_of_ascii a) (N_of_ascii b)); auto.
Qed.

Lemma string_compare_trans (a b c : string) :
  String.compare a b <> Gt -> String.compare b c <> Gt ->
  String.compare a c <> Gt.
Proof.
  revert b c.
  induction a as [|x a IH]; intros [|y b] [|z c]; simpl; try congruence.
  destruct (ascii_compare_cases x y) as [[-> Hxy]|[[-> Hxy]|[-> Hxy]]];
    destruct (ascii_compare_cases y z) as [[-> Hyz]|[[-> Hyz]|[-> Hyz]]];
    destruct (ascii_compare_cases x z) as [[-> Hxz]|[[-> Hxz]|[-> Hxz]]];
    try congruence; try lia.
  apply IH.
Qed.

Lemma str_le_trans (a b c : string) : str_le a b -> str_le b c -> str_le a c.
Proof.
  unfold str_le, String.leb. intros Hab Hbc.
  pose proof (string_compare_trans a b c) as H.
  destruct (String.compare a b); try discriminate;
    destruct (String.compare b c); try discriminate;
    destruct (String.compare a c); try reflexivity;
    exfalso; apply H; congruence.
Qed.

Lemma default_cmp_trans (a b c : string) :
  JS.default_cmp a b <= 0 -> JS.default_cmp b c <= 0 -> JS.default_cmp a c <= 0.
Proof. rewrite !default_cmp_le. apply str_le_trans. Qed.

(** ** Row Normalizer *)

Lemma filter_subseq {A : Type} (f : A -> bool) (l : list A) :
  subseq (filter f l) l.
Proof.
  induction l as [|x t IH]; simpl.
  - constructor.
  - destruct (f x); now constructor.
Qed.



(** On rows of the declared type the test reads: a non-empty country, a
    non-zero year, a non-zero population. *)
Lemma valid_row_typed (d : GapminderData) :
  valid_row d
  = negb (String.eqb (country d) EmptyString) && negb (Z.eqb (year d) 0)
    && negb (Z.eqb (pop d) 0).
Proof.
  unfold valid_row. simpl. unfold Qeq_bool. simpl.
  rewrite !Z.mul_1_r. reflexivity.
Qed.


(** C10.  A record whose three fields are all present is still dropped
    when its population is the number 0, its year is the number 0 or its
    country is the empty string: line 41 tests truthiness, not presence. *)
Theorem normalizer_drops_falsy_present_fields
  (records : list RawRecord) (r : RawRecord) :
  JS.present (raw_country r) = true ->
  JS.present (raw_year r) = true ->
  JS.present (raw_pop r) = true ->
  is_zero (raw_pop r) = true \/ is_zero (raw_year r) = true
  \/ raw_country r = JS.VStr EmptyString ->
  ~ In r (validData records).
Proof.
  intros _ _ _ Hfalsy Hin.
  apply filter_In in Hin as [_ Hv].
  unfold valid_row in Hv. simpl in Hv.
  apply andb_prop in Hv as [Hv Hp]. apply andb_prop in Hv as [Hc Hy].
  destruct Hfalsy as [H|[H|H]].
  - destruct (raw_pop r); simpl in *; try discriminate.
    rewrite H in Hp. discriminate.
  - destruct (raw_year r); simpl in *; try discriminate.
    rewrite H in Hy. discriminate.
  - rewrite H in Hc. discriminate.
Qed.

Lemma normalizer_drops_falsy_present_fields_witness :
  JS.present (raw_country zero_population_record) = true
  /\ JS.present (raw_year zero_population_record) = true
  /\ JS.present (raw_pop zero_population_record) = true
  /\ ~ In zero_population_record (validData [zero_population_record]).
Proof.
  repeat split.
  apply (normalizer_drops_falsy_present_fields
           [zero_population_record] zero_population_record);
    [reflexivity | reflexivity | reflexivity | left; reflexivity].
Defined.

(** ** Series Index *)

Lemma StronglySorted_impl {A : Type} (R R' : A -> A -> Prop) (l : list A) :
  (forall x y, R x y -> R' x y) -> StronglySorted R l -> StronglySorted R' l.
Proof.
  intros HR. induction 1 as [|x t Hs IH Hx]; constructor.
  - exact IH.
  - eapply Forall_impl; [|exact Hx]. intros y. apply HR.
Qed.

Lemma existsb_eqb_In (x : string) (l : list string) :
  existsb (String.eqb x) l = true <-> In x l.
Proof.
  rewrite existsb_exists. split.
  - intros (y & Hy & E). apply String.eqb_eq in E. now subst.
  - intros H. exists x. split; [exact H | apply String.eqb_refl].
Qed.

Lemma set_add_all_In (xs seen : list string) (x : string) :
  In x (JS.set_add_all seen xs) <-> In x seen \/ In x xs.
Proof.
  revert seen. induction xs as [|y t IH]; intros seen; simpl.
  - tauto.
  - destruct (existsb (String.eqb y) seen) eqn:E; rewrite IH.
    + apply existsb_eqb_In in E. split; [tauto|].
      intros [H|[<-|H]]; auto.
    + rewrite in_app_iff. simpl. tauto.
Qed.

Lemma set_add_all_NoDup (xs seen : list string) :
  NoDup seen -> NoDup (JS.set_add_all seen xs).
Proof.
  revert seen. induction xs as [|y t IH]; intros seen Hnd; simpl.
  - exact Hnd.
  - destruct (existsb (String.eqb y) seen) eqn:E.
    + now apply IH.
    + apply IH.
      apply (Permutation_NoDup (l := y :: seen)).
      * apply Permutation_cons_append.
      * constructor; [|exact Hnd].
        intros Hin. apply existsb_eqb_In in Hin. congruence.
Qed.

Lemma uniqueCountries_In (rows : list GapminderData) (c : string) :
  In c (uniqueCountries rows) <-> exists r, In r rows /\ country r = c.
Proof.
  unfold uniqueCountries, JS.set_of.
  rewrite sort_In, set_add_all_In, in_map_iff. simpl.
  split.
  - intros [[]|(r & E & Hr)]. now exists r.
  - intros (r & Hr & E). right. now exists r.
Qed.

Lemma filteredData_sorted (rows : list GapminderData) (c : string) :
  StronglySorted year_le (filteredData rows c).
Proof.
  unfold filteredData.
  apply StronglySorted_impl with (R := le_of by_year).
  - unfold le_of, by_year, year_le. intros; lia.
  - apply sort_sorted; [apply by_year_total | apply by_year_trans].
Qed.

Lemma filteredData_stable (rows : list GapminderData) (c : string) (y : Z) :
  filter (fun r => Z.eqb (year r) y) (filteredData rows c)
  = filter (fun r => Z.eqb (year r) y)
      (filter (fun r => String.eqb (country r) c) rows).
Proof.
  unfold filteredData. apply sort_stable.
  intros a b Ha Hab. apply Z.eqb_eq in Ha. apply Z.eqb_neq.
  unfold by_year in Hab. lia.
Qed.

(** A stable sort by year has only one possible result, so the insertion
    sort of the embedding stands for whatever stable algorithm the engine
    runs. *)
Lemma sorted_classes_unique (l1 l2 : list GapminderData) :
  StronglySorted year_le l1 -> StronglySorted year_le l2 ->
  (forall y, filter (fun r => Z.eqb (year r) y) l1
             = filter (fun r => Z.eqb (year r) y) l2) ->
  l1 = l2.
Proof.
  intros H1. revert l2.
  induction H1 as [|a t1 Hs1 IH Ha]; intros l2 H2 Hcls.
  - destruct l2 as [|b t2]; [reflexivity|].
    specialize (Hcls (year b)). simpl in Hcls.
    rewrite Z.eqb_refl in Hcls. discriminate.
  - destruct l2 as [|b t2].
    + specialize (Hcls (year a)). simpl in Hcls.
      rewrite Z.eqb_refl in Hcls. discriminate.
    + inversion H2 as [|b' t2' Hs2 Hb]; subst.
      rewrite Forall_forall in Ha, Hb.
      assert (Hab : year a = year b).
      { pose proof (Hcls (year a)) as Hya. pose proof (Hcls (year b)) as Hyb.
        simpl in Hya, Hyb. rewrite Z.eqb_refl in Hya, Hyb.
        assert (Hin_a : In a (b :: t2)).
        { apply (proj1 (filter_In (fun r => Z.eqb (year r) (year a)) a (b :: t2))).
          simpl. rewrite <- Hya. now left. }
        assert (Hin_b : In b (a :: t1)).
        { apply (proj1 (filter_In (fun r => Z.eqb (year r) (year b)) b (a :: t1))).
          simpl. rewrite Hyb. now left. }
        assert (year b <= year a).
        { destruct Hin_a as [->|Hin]; [lia | now apply Hb]. }
        assert (year a <= year b).
        { destruct Hin_b as [->|Hin]; [lia | now apply Ha]. }
        lia. }
      assert (Heq : a = b).
      { specialize (Hcls (year a)). simpl in Hcls.
        rewrite <- Hab, Z.eqb_refl in Hcls. now injection Hcls. }
      subst b. f_equal. apply IH; [exact Hs2|].
      intros y. specialize (Hcls y). simpl in Hcls.
      destruct (Z.eqb (year a) y); [now injection Hcls | exact Hcls].
Qed.

Lemma stable_sort_by_year_unique (l sorted : list GapminderData) :
  StronglySorted year_le sorted ->
  (forall y, filter (fun r => Z.eqb (year r) y) sorted
             = filter (fun r => Z.eqb (year r) y) l) ->
  sorted = JS.sort by_year l.
Proof.
  intros Hs Hcls. apply sorted_classes_unique.
  - exact Hs.
  - apply StronglySorted_impl with (R := le_of by_year).
    + unfold le_of, by_year, year_le. intros; lia.
    + apply sort_sorted; [apply by_year_total | apply by_year_trans].
  - intros y. rewrite Hcls. symmetry. apply sort_stable.
    intros a b Ha Hab. apply Z.eqb_eq in Ha. apply Z.eqb_neq.
    unfold by_year in Hab. lia.
Qed.

(** C7.  For every row sequence: [uniqueCountries] is sorted ascending in
    the lexicographic (code-unit) order, has no duplicate and holds exactly
    the country values that occur in the input; and for every country [c]
    the per-country series [filteredData rows c] is sorted ascending by
    year, is a rearrangement of exactly the rows whose country is [c], and
    lists the rows of any one year in their input order. *)
Theorem series_index_sorted_dedup_stable (rows : list GapminderData) :
  (StronglySorted str_le (uniqueCountries rows)
   /\ NoDup (uniqueCountries rows)
   /\ forall c, In c (uniqueCountries rows)
                <-> exists r, In r rows /\ country r = c)
  /\ forall c,
      StronglySorted year_le (filteredData rows c)
      /\ Permutation (filteredData rows c)
           (filter (fun r => String.eqb (country r) c) rows)
      /\ forall y,
          filter (fun r => Z.eqb (year r) y) (filteredData rows c)
          = filter (fun r => Z.eqb (year r) y)
              (filter (fun r => String.eqb (country r) c) rows).
Proof.
  split; [split; [|split]|].
  - unfold uniqueCountries.
    apply StronglySorted_impl with (R := le_of JS.default_cmp).
    + intros a b. apply default_cmp_le.
    + apply sort_sorted; [apply default_cmp_total | apply default_cmp_trans].
  - unfold uniqueCountries.
    apply (Permutation_NoDup (l := JS.set_of (map country rows))).
    + apply Permutation_sym, sort_perm.
    + apply set_add_all_NoDup. constructor.
  - apply uniqueCountries_In.
  - intros c. split; [|split].
    + apply filteredData_sorted.
    + apply sort_perm.
    + apply filteredData_stable.
Qed.

(** ** Boundary year *)

Lemma math_max_ge_init (xs : list Z) (x : Z) : x <= JS.math_max x xs.
Proof.
  unfold JS.math_max. revert x.
  induction xs as [|y t IH]; intros x; simpl.
  - lia.
  - specialize (IH (Z.max x y)). lia.
Qed.

Lemma math_max_upper (xs : list Z) (x y : Z) :
  In y (x :: xs) -> y <= JS.math_max x xs.
Proof.
  revert x. induction xs as [|z t IH]; intros x Hin.
  - destruct Hin as [->|[]]. apply math_max_ge_init.
  - destruct Hin as [->|[->|Hin]].
    + apply math_max_ge_init.
    + pose proof (math_max_ge_init t (Z.max x y)) as H.
      unfold JS.math_max in *. simpl. lia.
    + change (y <= JS.math_max (Z.max x z) t). apply IH. now right.
Qed.

Lemma math_max_In (xs : list Z) (x : Z) : In (JS.math_max x xs) (x :: xs).
Proof.
  unfold JS.math_max. revert x.
  induction xs as [|z t IH]; intros x; simpl.
  - now left.
  - destruct (IH (Z.max x z)) as [H|H].
    + rewrite <- H. destruct (Z.max_spec x z) as [[_ ->]|[_ ->]]; auto.
    + auto.
Qed.

Lemma math_max_years (d : GapminderData) (rest : list GapminderData) :
  is_max_year (JS.math_max (year d) (map year rest)) (d :: rest).
Proof.
  split.
  - apply (math_max_In (map year rest) (year d)).
  - intros r Hr. apply math_max_upper.
    change (In (year r) (map year (d :: rest))). now apply in_map.
Qed.

(** C5.  For every row sequence: when it has non-predicted rows,
    [lastHistoricalYear] is defined and is the largest year among them;
    when it has none, [lastHistoricalYear] is undefined and the chart draws
    no boundary annotation. *)
Theorem boundary_year_is_max_of_historical (series : list GapminderData) :
  (filter not_predicted series <> [] ->
   exists m, lastHistoricalYear series = Some m
             /\ is_max_year m (filter not_predicted series))
  /\ (filter not_predicted series = [] ->
      lastHistoricalYear series = None
      /\ reference_area_drawn series (lastHistoricalYear series) = false).
Proof.
  unfold lastHistoricalYear.
  change (fun d => negb (is_predicted d)) with not_predicted.
  destruct (filter not_predicted series) as [|d rest]; split.
  - intros H. now destruct H.
  - intros _. split; reflexivity.
  - intros _. eexists. split; [reflexivity | apply math_max_years].
  - discriminate.
Qed.

(** ** The forecast request *)


Lemma slice_last_suffix {A : Type} (n : nat) (l : list A) :
  exists front, l = front ++ JS.slice_last n l.
Proof.
  exists (firstn (List.length l - n) l).
  unfold JS.slice_last. symmetry. apply firstn_skipn.
Qed.




(** ** The controller: what each handler leaves untouched *)

Lemma begin_true_frame (st : App.State) :
  let st' := fst (App.handlePredictionToggle_begin true st) in
  App.data st' = App.data st
  /\ App.originalData st' = App.originalData st
  /\ App.selectedCountry st' = App.selectedCountry st
  /\ App.countries st' = App.countries st
  /\ App.showPrediction st' = true.
Proof.
  unfold App.handlePredictionToggle_begin.
  cbv beta iota zeta delta [negb].
  destruct (App.countryData _); repeat split.
Qed.

Lemma begin_false_eq (st : App.State) :
  App.handlePredictionToggle_begin false st
  = (App.setData (App.originalData st) (App.setShowPrediction false st), None).
Proof. reflexivity. Qed.

Lemma resume_frame (p : App.Pending) (o : App.OracleOutcome) (st : App.State) :
  let st' := App.handlePredictionToggle_resume p o st in
  App.originalData st' = App.originalData st
  /\ App.selectedCountry st' = App.selectedCountry st
  /\ App.countries st' = App.countries st
  /\ App.predicting st' = false.
Proof. destruct o as [e|m|[items|]]; repeat split. Qed.

Lemma resume_success_data (p : App.Pending) (items : list App.YearPop)
  (st : App.State) :
  App.data (App.handlePredictionToggle_resume p (App.Decoded (App.JArray items)) st)
  = filter not_predicted (App.data st) ++ App.newPredictedData p items.
Proof. reflexivity. Qed.

Lemma resume_failure_data (p : App.Pending) (o : App.OracleOutcome)
  (st : App.State) :
  is_failure o = true ->
  App.data (App.handlePredictionToggle_resume p o st) = App.data st.
Proof. destruct o as [e|m|[items|]]; simpl; intros H; try reflexivity; discriminate. Qed.

Lemma newPredictedData_predicted (p : App.Pending) (items : list App.YearPop) :
  Forall (fun r => is_predicted r = true /\ country r = App.req_country p)
    (App.newPredictedData p items).
Proof.
  unfold App.newPredictedData. apply Forall_forall.
  intros r Hr. apply in_map_iff in Hr as (v & <- & _). split; reflexivity.
Qed.

Lemma filter_none {A : Type} (f : A -> bool) (l : list A) :
  Forall (fun x => f x = false) l -> filter f l = [].
Proof.
  induction 1 as [|x t Hx _ IH]; simpl.
  - reflexivity.
  - now rewrite Hx.
Qed.

Lemma filter_all {A : Type} (f : A -> bool) (l : list A) :
  Forall (fun x => f x = true) l -> filter f l = l.
Proof.
  induction 1 as [|x t Hx _ IH]; simpl.
  - reflexivity.
  - now rewrite Hx, IH.
Qed.

Lemma filter_idem {A : Type} (f : A -> bool) (l : list A) :
  filter f (filter f l) = filter f l.
Proof.
  apply filter_all, Forall_forall. intros x Hx.
  now apply filter_In in Hx.
Qed.

Lemma filter_comm {A : Type} (f g : A -> bool) (l : list A) :
  filter f (filter g l) = filter g (filter f l).
Proof.
  induction l as [|x t IH]; simpl.
  - reflexivity.
  - destruct (f x) eqn:Ef, (g x) eqn:Eg; simpl; rewrite ?Ef, ?Eg, IH; reflexivity.
Qed.

Lemma batch_not_historical (p : App.Pending) (items : list App.YearPop) :
  filter not_predicted (App.newPredictedData p items) = [].
Proof.
  apply filter_none.
  eapply Forall_impl; [|apply newPredictedData_predicted].
  intros r [Hr _]. unfold not_predicted. now rewrite Hr.
Qed.

Lemma batch_all_predicted (p : App.Pending) (items : list App.YearPop) :
  filter is_predicted (App.newPredictedData p items)
  = App.newPredictedData p items.
Proof.
  apply filter_all.
  eapply Forall_impl; [|apply newPredictedData_predicted].
  now intros r [Hr _].
Qed.

Lemma historical_not_predicted (l : list GapminderData) :
  filter is_predicted (filter not_predicted l) = [].
Proof.
  apply filter_none, Forall_forall. intros r Hr.
  apply filter_In in Hr as [_ Hr]. unfold not_predicted in Hr.
  now destruct (is_predicted r).
Qed.

(** ** The invariant of a session *)

Lemma csv_rows_historical (rows : list GapminderData) :
  Session.csv_rows rows = true -> filter not_predicted rows = rows.
Proof.
  unfold Session.csv_rows. rewrite forallb_forall. intros H.
  apply filter_all, Forall_forall. intros r Hr.
  specialize (H r Hr). unfold not_predicted, is_predicted.
  now destruct (predicted r).
Qed.

Lemma consistent_fetch_end (o : App.FetchOutcome) (st : App.State) :
  Session.outcome_ok o = true -> consistent st ->
  consistent (App.fetchData_end o st).
Proof.
  unfold consistent.
  destruct o as [status|e| | |rows]; simpl; intros Hok Hc; try exact Hc.
  unfold validData. rewrite filter_comm.
  now rewrite csv_rows_historical.
Qed.

Lemma consistent_begin (checked : bool) (st : App.State) :
  consistent st ->
  consistent (fst (App.handlePredictionToggle_begin checked st)).
Proof.
  unfold consistent. intros Hc. destruct checked.
  - destruct (begin_true_frame st) as (Hd & Ho & _).
    now rewrite Hd, Ho.
  - rewrite begin_false_eq. simpl.
    rewrite <- Hc. apply filter_idem.
Qed.

Lemma consistent_resume (p : App.Pending) (o : App.OracleOutcome)
  (st : App.State) :
  consistent st -> consistent (App.handlePredictionToggle_resume p o st).
Proof.
  unfold consistent. intros Hc.
  destruct (resume_frame p o st) as (Ho & _). rewrite Ho.
  destruct (is_failure o) eqn:E.
  - now rewrite resume_failure_data.
  - destruct o as [e|m|[items|]]; try discriminate.
    rewrite resume_success_data, filter_app, filter_idem, batch_not_historical.
    now rewrite app_nil_r.
Qed.

Lemma consistent_commit (before after : App.State) (pending : list App.Pending) :
  consistent after -> consistent (Session.view (Session.commit before after pending)).
Proof.
  intros Hc. unfold Session.commit.
  destruct (Session.deps_changed before after && App.showPrediction after).
  - pose proof (consistent_begin true after Hc) as H.
    now destruct (App.handlePredictionToggle_begin true after).
  - exact Hc.
Qed.

Lemma consistent_step (e : Session.Event) (s s' : Session.Sys) :
  Session.step e s = Some s' ->
  consistent (Session.view s) -> consistent (Session.view s').
Proof.
  intros Hstep Hc. destruct e as [o| | |c|k o]; simpl in Hstep.
  - destruct (App.loading (Session.view s) && Session.outcome_ok o) eqn:G;
      [|discriminate].
    apply andb_prop in G as [_ Hok].
    injection Hstep as <-. now apply consistent_commit, consistent_fetch_end.
  - destruct (App.error (Session.view s)); [|discriminate].
    destruct (App.loading (Session.view s)); [discriminate|].
    injection Hstep as <-. now apply consistent_commit.
  - destruct (Session.controls_enabled (Session.view s)); [|discriminate].
    pose proof (consistent_begin
                  (negb (App.showPrediction (Session.view s))) _ Hc) as H.
    destruct (App.handlePredictionToggle_begin _ (Session.view s)) as [st' req].
    injection Hstep as <-. now apply consistent_commit.
  - destruct (Session.controls_enabled (Session.view s) && _); [|discriminate].
    injection Hstep as <-. now apply consistent_commit.
  - destruct (nth_error (Session.inflight s) k) as [p|]; [|discriminate].
    injection Hstep as <-. now apply consistent_commit, consistent_resume.
Qed.

(** In every state a session can reach, the rows of the working data set
    that are not tagged predicted are the loaded dataset. *)
Lemma reachable_consistent (s : Session.Sys) :
  Session.reachable s -> consistent (Session.view s).
Proof.
  intros [es Hrun].
  assert (Hstart : consistent (Session.view Session.start)) by reflexivity.
  revert Hrun Hstart. generalize Session.start as s0.
  induction es as [|e rest IH]; intros s0 Hrun H0; simpl in Hrun.
  - injection Hrun as <-. exact H0.
  - destruct (Session.step e s0) as [s1|] eqn:E; [|discriminate].
    apply (IH s1 Hrun). now apply (consistent_step e s0).
Qed.

(** ** The working series after a merge *)

Lemma filteredData_historical (l : list GapminderData) (c : string) :
  filter not_predicted (filteredData l c)
  = filteredData (filter not_predicted l) c.
Proof.
  unfold filteredData.
  rewrite filter_sort by (apply by_year_total || apply by_year_trans).
  now rewrite filter_comm.
Qed.

Lemma batch_of_country (p : App.Pending) (items : list App.YearPop) :
  filter (fun r => String.eqb (country r) (App.req_country p))
    (App.newPredictedData p items)
  = App.newPredictedData p items.
Proof.
  apply filter_all.
  eapply Forall_impl; [|apply newPredictedData_predicted].
  intros r [_ ->]. apply String.eqb_refl.
Qed.

Lemma batch_of_other_country (p : App.Pending) (items : list App.YearPop)
  (c : string) :
  App.req_country p <> c ->
  filter (fun r => String.eqb (country r) c) (App.newPredictedData p items) = [].
Proof.
  intros Hne. apply filter_none.
  eapply Forall_impl; [|apply newPredictedData_predicted].
  intros r [_ ->]. now apply String.eqb_neq.
Qed.

Lemma consistent_series_historical (st : App.State) (c : string) :
  consistent st ->
  Forall (fun r => is_predicted r = false)
    (filteredData (App.originalData st) c).
Proof.
  unfold consistent. intros <-. apply Forall_forall. intros r Hr.
  unfold filteredData in Hr. apply sort_In in Hr.
  apply filter_In in Hr as [Hr _]. apply filter_In in Hr as [_ Hr].
  unfold not_predicted in Hr. now destruct (is_predicted r).
Qed.

(** ** Forecast Merger *)

(** C2.  From a state of a session (the non-predicted rows of the data
    set are the dataset), merge a batch [b1] and then a batch [b2]
    requested for country [c]: the data set is the dataset followed by the
    rows of [b2], its predicted rows are exactly the rows of [b2], and the
    working series of [c] is a rearrangement of the historical series of
    [c] together with the rows of [b2].  Nothing is assumed about the
    years of [b1] and [b2], nor about the country of [b1]. *)
Theorem second_batch_replaces_first
  (st : App.State) (p1 p2 : App.Pending) (b1 b2 : list App.YearPop) :
  consistent st ->
  let st1 := App.handlePredictionToggle_resume p1 (App.Decoded (App.JArray b1)) st in
  let st2 := App.handlePredictionToggle_resume p2 (App.Decoded (App.JArray b2)) st1 in
  App.data st2 = App.originalData st ++ App.newPredictedData p2 b2
  /\ filter is_predicted (App.data st2) = App.newPredictedData p2 b2
  /\ Permutation (filteredData (App.data st2) (App.req_country p2))
       (filteredData (App.originalData st) (App.req_country p2)
        ++ App.newPredictedData p2 b2).
Proof.
  intros Hc st1 st2.
  assert (Hdata : App.data st2
                  = App.originalData st ++ App.newPredictedData p2 b2).
  { unfold st2, st1. rewrite !resume_success_data.
    rewrite filter_app, filter_idem, batch_not_historical, app_nil_r.
    now rewrite Hc. }
  split; [exact Hdata|]. rewrite Hdata. split.
  - rewrite filter_app, batch_all_predicted.
    rewrite <- Hc, historical_not_predicted. reflexivity.
  - unfold filteredData at 1. rewrite filter_app, batch_of_country.
    eapply Permutation_trans; [apply sort_perm|].
    apply Permutation_app_tail, Permutation_sym, sort_perm.
Qed.

Lemma second_batch_replaces_first_witness :
  let st := Session.view (sys_after first_answer_merged) in
  let st1 :=
    App.handlePredictionToggle_resume pending_canada
      (App.Decoded (App.JArray batch_chile)) st in
  let st2 :=
    App.handlePredictionToggle_resume pending_canada
      (App.Decoded (App.JArray batch_2008_2025)) st1 in
  consistent st
  /\ App.data st2
     = two_countries ++ App.newPredictedData pending_canada batch_2008_2025
  /\ filter is_predicted (App.data st2)
     = App.newPredictedData pending_canada batch_2008_2025
  /\ Permutation (filteredData (App.data st2) "Canada")
       (filteredData two_countries "Canada"
        ++ App.newPredictedData pending_canada batch_2008_2025).
Proof.
  intros st st1 st2.
  assert (Hc : consistent st) by (vm_compute; reflexivity).
  split; [exact Hc|].
  assert (Hd : App.originalData st = two_countries) by (vm_compute; reflexivity).
  rewrite <- Hd.
  exact (second_batch_replaces_first st pending_canada pending_canada
           batch_chile batch_2008_2025 Hc).
Defined.

(** C9.  After a successful merge the predicted rows of the whole data
    set are exactly the rows built from the answer just merged; each of
    them carries the country the request was made for, and the series of
    any other country holds no predicted row. *)
Theorem predicted_rows_belong_to_latest_forecast
  (st : App.State) (p : App.Pending) (items : list App.YearPop) :
  let st' := App.handlePredictionToggle_resume p (App.Decoded (App.JArray items)) st in
  filter is_predicted (App.data st') = App.newPredictedData p items
  /\ Forall (fun r => country r = App.req_country p)
       (filter is_predicted (App.data st'))
  /\ forall c, App.req_country p <> c ->
       filter is_predicted (filteredData (App.data st') c) = [].
Proof.
  intros st'.
  assert (Hp : filter is_predicted (App.data st') = App.newPredictedData p items).
  { unfold st'. rewrite resume_success_data, filter_app.
    now rewrite historical_not_predicted, batch_all_predicted. }
  split; [exact Hp|]. split.
  - rewrite Hp. eapply Forall_impl; [|apply newPredictedData_predicted].
    now intros r [_ Hr].
  - intros c Hne. unfold filteredData.
    rewrite filter_sort by (apply by_year_total || apply by_year_trans).
    rewrite filter_comm, Hp, batch_of_other_country by exact Hne.
    reflexivity.
Qed.

(** ** View State Controller *)

(** C8.  When the controls are enabled and the box is checked, a click on
    the box unchecks it, issues no oracle call (the set of pending calls is
    unchanged), and makes the working data set the loaded dataset: the
    working series is the historical series of the selected country, and
    none of its rows is tagged predicted. *)
Theorem toggle_off_reverts_to_historical (s : Session.Sys) :
  consistent (Session.view s) ->
  Session.controls_enabled (Session.view s) = true ->
  App.showPrediction (Session.view s) = true ->
  exists s',
    Session.step Session.ToggleClick s = Some s'
    /\ Session.inflight s' = Session.inflight s
    /\ App.showPrediction (Session.view s') = false
    /\ App.data (Session.view s') = App.originalData (Session.view s)
    /\ App.workingSeries (Session.view s')
       = filteredData (App.originalData (Session.view s))
           (App.selectedCountry (Session.view s))
    /\ Forall (fun r => is_predicted r = false)
         (App.workingSeries (Session.view s')).
Proof.
  intros Hc Hen Hshow.
  unfold Session.step. rewrite Hen, Hshow.
  cbn [negb]. rewrite begin_false_eq.
  unfold Session.commit.
  replace (App.showPrediction
             (App.setData (App.originalData (Session.view s))
                (App.setShowPrediction false (Session.view s))))
    with false by reflexivity.
  rewrite andb_false_r.
  eexists. split; [reflexivity|].
  cbn [Session.inflight Session.view Session.issued].
  split; [apply app_nil_r|].
  repeat split.
  now apply consistent_series_historical.
Qed.

Lemma toggle_off_reverts_to_historical_witness :
  let s := sys_after first_answer_merged in
  consistent (Session.view s)
  /\ Session.controls_enabled (Session.view s) = true
  /\ App.showPrediction (Session.view s) = true
  /\ exists s',
      Session.step Session.ToggleClick s = Some s'
      /\ Session.inflight s' = Session.inflight s
      /\ App.showPrediction (Session.view s') = false
      /\ App.data (Session.view s') = App.originalData (Session.view s)
      /\ App.workingSeries (Session.view s')
         = filteredData (App.originalData (Session.view s))
             (App.selectedCountry (Session.view s))
      /\ Forall (fun r => is_predicted r = false)
           (App.workingSeries (Session.view s')).
Proof.
  intros s.
  assert (Hc : consistent (Session.view s)) by (vm_compute; reflexivity).
  assert (He : Session.controls_enabled (Session.view s) = true)
    by (vm_compute; reflexivity).
  assert (Hs : App.showPrediction (Session.view s) = true)
    by (vm_compute; reflexivity).
  split; [exact Hc|]. split; [exact He|]. split; [exact Hs|].
  exact (toggle_off_reverts_to_historical s Hc He Hs).
Defined.

(** C1, as the code has it.  When the oracle call fails (rejection,
    undecodable text, or a decoded value that is not an array) the handler
    unchecks the box, clears the busy flag and records a message, which is
    rendered in place of the controls and the chart; it does not touch the
    working data set, so the working series is what it was, and it is the
    historical series of the selected country whenever it held no
    predicted row.  When the selected country has no historical row, no
    request is issued, the message is recorded, the busy flag is cleared
    and the working data set is likewise untouched. *)
Theorem forecast_failure_unchecks_and_keeps_data (st : App.State) :
  (forall p o,
      is_failure o = true ->
      let st' := App.handlePredictionToggle_resume p o st in
      App.showPrediction st' = false
      /\ App.predicting st' = false
      /\ (exists m,
             App.error st'
             = Some (String.append "Failed to generate prediction: " m))
      /\ Session.controls_enabled st' = false
      /\ App.data st' = App.data st
      /\ App.workingSeries st' = App.workingSeries st
      /\ (consistent st ->
          Forall (fun r => is_predicted r = false) (App.workingSeries st) ->
          App.workingSeries st'
          = filteredData (App.originalData st) (App.selectedCountry st)))
  /\ (App.countryData st = [] ->
      exists st',
        App.handlePredictionToggle_begin true st = (st', None)
        /\ App.error st'
           = Some "No data available for this country to make a prediction."
        /\ App.predicting st' = false
        /\ Session.controls_enabled st' = false
        /\ App.data st' = App.data st
        /\ App.workingSeries st' = App.workingSeries st).
Proof.
  split.
  - intros p o Hf st'.
    assert (Hw : App.workingSeries st' = App.workingSeries st).
    { unfold st'. destruct o as [e|m|[items|]]; try discriminate; reflexivity. }
    assert (He : exists m,
               App.error st'
               = Some (String.append "Failed to generate prediction: " m)).
    { unfold st'. destruct o as [e|m|[items|]]; try discriminate;
        eexists; reflexivity. }
    split; [|split; [|split; [exact He|split; [|split; [|split; [exact Hw|]]]]]].
    + unfold st'. destruct o as [e|m|[items|]]; try discriminate; reflexivity.
    + apply resume_frame.
    + destruct He as [m Hm]. unfold Session.controls_enabled.
      rewrite Hm. apply andb_false_iff. left. apply andb_false_r.
    + unfold st'. now apply resume_failure_data.
    + intros Hc Hh. rewrite Hw. unfold consistent in Hc. rewrite <- Hc.
      unfold App.workingSeries.
      rewrite <- filteredData_historical.
      symmetry. apply filter_all.
      eapply Forall_impl; [|exact Hh].
      intros r Hr. unfold not_predicted. now rewrite Hr.
  - intros He. unfold App.handlePredictionToggle_begin.
    cbv beta iota zeta delta [negb].
    change (App.countryData (App.setError _ _)) with (App.countryData st).
    rewrite He. eexists. split; [reflexivity|]. split; [reflexivity|].
    split; [reflexivity|]. split; [|split; reflexivity].
    unfold Session.controls_enabled. cbn [App.error App.setPredicting App.setError].
    apply andb_false_iff. left. apply andb_false_r.
Qed.

(** C1 as stated fails.  With a dataset that has no row for the selected
    country the box stays checked after the error.  And when the first of
    the two requests of a click has been merged and the second one is
    rejected, the box is unchecked but the predicted rows stay in the
    working series, and the controls give way to the error panel. *)
Lemma forecast_errors_not_fail_closed :
  (App.countryData (loaded chile_only) = []
   /\ ~ fail_closed (loaded chile_only)
         (fst (App.handlePredictionToggle_begin true (loaded chile_only))))
  /\ (Session.run first_answer_merged Session.start
      = Some (sys_after first_answer_merged)
      /\ nth_error (Session.inflight (sys_after first_answer_merged)) 0
         = Some pending_canada
      /\ ~ fail_closed (Session.view (sys_after first_answer_merged))
            (App.handlePredictionToggle_resume pending_canada
               (App.Rejected App.ThrownOther)
               (Session.view (sys_after first_answer_merged)))
      /\ Session.controls_enabled
           (App.handlePredictionToggle_resume pending_canada
              (App.Rejected App.ThrownOther)
              (Session.view (sys_after first_answer_merged)))
         = false).
Proof.
  split; split.
  - vm_compute. reflexivity.
  - intros [H _]. vm_compute in H. discriminate.
  - vm_compute. reflexivity.
  - split; [vm_compute; reflexivity|].
    split; [|vm_compute; reflexivity].
    intros [_ H]. vm_compute in H. discriminate.
Qed.

(** The guard the code has instead of a request token: while a call is
    marked as running the selector and the checkbox are disabled. *)
Lemma controls_locked_while_predicting (s : Session.Sys) (c : string) :
  App.predicting (Session.view s) = true ->
  Session.step (Session.SelectCountry c) s = None
  /\ Session.step Session.ToggleClick s = None.
Proof.
  intros Hp. unfold Session.step, Session.controls_enabled.
  rewrite Hp. cbn [negb]. rewrite andb_false_r. split; reflexivity.
Qed.

(** C3, as the code has it.  There is no request token and no staleness
    check: the answer to a request made for another country than the one
    now selected is merged like any other.  All predicted rows leave the
    data set and the rows of the answer, tagged with the country of the
    request, are appended.  The working series of the selected country
    therefore becomes its rows that are not tagged predicted, and holds no
    row of the answer. *)
Theorem stale_answer_is_merged_unchecked
  (st : App.State) (p : App.Pending) (items : list App.YearPop) :
  App.req_country p <> App.selectedCountry st ->
  let st' := App.handlePredictionToggle_resume p (App.Decoded (App.JArray items)) st in
  App.data st' = filter not_predicted (App.data st) ++ App.newPredictedData p items
  /\ App.workingSeries st' = filter not_predicted (App.workingSeries st)
  /\ Forall (fun r => ~ In r (App.newPredictedData p items))
       (App.workingSeries st').
Proof.
  intros Hne st'.
  assert (Hw : App.workingSeries st' = filter not_predicted (App.workingSeries st)).
  { unfold App.workingSeries.
    replace (App.selectedCountry st') with (App.selectedCountry st)
      by reflexivity.
    unfold st'. rewrite resume_success_data.
    rewrite filteredData_historical.
    unfold filteredData.
    now rewrite filter_app, batch_of_other_country, app_nil_r. }
  split; [reflexivity|]. split; [exact Hw|].
  rewrite Hw. apply Forall_forall. intros r Hr Hin.
  apply filter_In in Hr as [_ Hr].
  pose proof (newPredictedData_predicted p items) as Hall.
  rewrite Forall_forall in Hall. destruct (Hall r Hin) as [Hp _].
  unfold not_predicted in Hr. rewrite Hp in Hr. discriminate.
Qed.

Lemma stale_answer_is_merged_unchecked_witness :
  let st := Session.view (sys_after chile_forecast_shown) in
  let st' :=
    App.handlePredictionToggle_resume pending_canada
      (App.Decoded (App.JArray batch_2008_2025)) st in
  App.req_country pending_canada <> App.selectedCountry st
  /\ App.data st'
     = filter not_predicted (App.data st)
       ++ App.newPredictedData pending_canada batch_2008_2025
  /\ App.workingSeries st' = filter not_predicted (App.workingSeries st)
  /\ Forall (fun r => ~ In r (App.newPredictedData pending_canada batch_2008_2025))
       (App.workingSeries st').
Proof.
  intros st st'.
  assert (Hne : App.req_country pending_canada <> App.selectedCountry st)
    by (vm_compute; discriminate).
  split; [exact Hne|].
  exact (stale_answer_is_merged_unchecked st pending_canada batch_2008_2025 Hne).
Defined.

(** C3 as stated fails.  Canada's second request is still pending when
    Chile is selected and Chile's forecast is shown; when Canada's answer
    then arrives it is applied: the data set changes, and Chile's working
    series loses its predicted rows. *)
Lemma stale_answer_changes_other_series :
  Session.run chile_forecast_shown Session.start
  = Some (sys_after chile_forecast_shown)
  /\ nth_error (Session.inflight (sys_after chile_forecast_shown)) 0
     = Some pending_canada
  /\ App.req_country pending_canada = "Canada"
  /\ App.selectedCountry (Session.view (sys_after chile_forecast_shown))
     = "Chile"
  /\ App.data
       (App.handlePredictionToggle_resume pending_canada
          (App.Decoded (App.JArray batch_2008_2025))
          (Session.view (sys_after chile_forecast_shown)))
     <> App.data (Session.view (sys_after chile_forecast_shown))
  /\ App.workingSeries
       (App.handlePredictionToggle_resume pending_canada
          (App.Decoded (App.JArray batch_2008_2025))
          (Session.view (sys_after chile_forecast_shown)))
     <> App.workingSeries (Session.view (sys_after chile_forecast_shown)).
Proof.
  split; [vm_compute; reflexivity|].
  split; [vm_compute; reflexivity|].
  split; [vm_compute; reflexivity|].
  split; [vm_compute; reflexivity|].
  split; intros H; vm_compute in H; discriminate.
Qed.

(** ** Worked examples *)

(** A [Set] keeps the first insertion of each element. *)
Example set_of_first_insertion :
  JS.set_of ["b"; "a"; "b"; "c"; "a"] = ["b"; "a"; "c"].
Proof. reflexivity. Qed.

(** Code-unit order: upper case before lower case, a prefix before its
    extensions. *)
Example uniqueCountries_code_unit_order :
  uniqueCountries
    [ historical_row "b" 1 1; historical_row "B" 1 1; historical_row "a" 1 1;
      historical_row "b" 2 1; historical_row "ab" 2 1 ]
  = ["B"; "a"; "ab"; "b"].
Proof. vm_compute. reflexivity. Qed.

(** Rows of the same year keep their input order. *)
Example filteredData_ties :
  map (fun r => (year r, pop r))
    (filteredData
       [ historical_row "x" 3 1; historical_row "x" 1 2; historical_row "y" 0 9;
         historical_row "x" 3 3; historical_row "x" 1 4; historical_row "x" 2 5 ]
       "x")
  = [(1, 2); (1, 4); (2, 5); (3, 1); (3, 3)].
Proof. vm_compute. reflexivity. Qed.

(** End-to-end scenario 2: the answer for 2008 and 2025 is appended as two
    predicted rows and the boundary is 2007. *)
Example scenario_forecast_merged :
  let st := Session.view (sys_after first_answer_merged) in
  map (fun r => (year r, pop r, is_predicted r)) (App.workingSeries st)
  = [ (2002, 31902268, false); (2007, 33390141, false);
      (2008, 34000000, true); (2025, 40000000, true) ]
  /\ App.boundaryYear st = Some 2007
  /\ reference_area_drawn (App.workingSeries st) (App.boundaryYear st) = true.
Proof. vm_compute. repeat split. Qed.

(** The click and the effect each issue a request: after the first answer
    one request for the same country is still pending, with the range
    2008 to 2025. *)
Example click_issues_two_requests :
  map (fun p => (App.req_country p,
                 App.prompt_from (App.req_prompt p),
                 App.prompt_to (App.req_prompt p)))
    (Session.inflight (sys_after first_answer_merged))
  = [("Canada", 2008, 2025)].
Proof. vm_compute. reflexivity. Qed.

(** End-to-end scenario 3: an answer that is not an array unchecks the
    box; here the data set had no predicted row, and the working series is
    the historical one. *)
Example scenario_invalid_shape :
  let s := sys_after [ Session.FetchReturns (App.Parsed two_countries);
                       Session.ToggleClick ] in
  let st' :=
    App.handlePredictionToggle_resume pending_canada
      (App.Decoded App.JNotArray) (Session.view s) in
  App.showPrediction st' = false
  /\ App.error st'
     = Some "Failed to generate prediction: Prediction API did not return an array."
  /\ App.workingSeries st' = filteredData two_countries "Canada".
Proof. vm_compute. repeat split. Qed.

(** End-to-end scenario 4: HTTP 500 gives the error state, and the retry
    starts a new load. *)
Example scenario_fetch_failure :
  let s := sys_after [ Session.FetchReturns (App.HttpNotOk "500") ] in
  App.error (Session.view s)
  = Some "Failed to fetch data: HTTP error! status: 500"
  /\ App.loading (Session.view s) = false
  /\ option_map (fun s' => App.loading (Session.view s'))
       (Session.step Session.TryAgain s)
     = Some true.
Proof. vm_compute. repeat split. Qed.

(** The request of the effect, as captured when it was issued. *)
Example pending_canada_contents :
  pending_canada
  = App.mkPending "Canada"
      [ historical_row "Canada" 2002 31902268;
        historical_row "Canada" 2007 33390141 ]
      (App.mkPrompt "Canada"
         [ App.mkYearPop 2002 31902268; App.mkYearPop 2007 33390141 ]
         2008 2025).
Proof. vm_compute. reflexivity. Qed.

(** The late Canadian answer of the stale-request scenario: before it
    Chile's series shows the forecast, after it the forecast is gone. *)
Example stale_answer_series :
  let st := Session.view (sys_after chile_forecast_shown) in
  let st' :=
    App.handlePredictionToggle_resume pending_canada
      (App.Decoded (App.JArray batch_2008_2025)) st in
  map (fun r => (country r, year r, is_predicted r)) (App.workingSeries st)
  = [ ("Chile", 2002, false); ("Chile", 2007, false);
      ("Chile", 2008, true); ("Chile", 2025, true) ]
  /\ map (fun r => (country r, year r, is_predicted r)) (App.workingSeries st')
     = [ ("Chile", 2002, false); ("Chile", 2007, false) ]
  /\ App.showPrediction st' = true.
Proof. vm_compute. repeat split. Qed.

(** * Further properties of the code *)

(** ** Shared lemmas *)

Lemma reachable_induction (P : Session.Sys -> Prop) :
  P Session.start ->
  (forall e s s', P s -> Session.step e s = Some s' -> P s') ->
  forall s, Session.reachable s -> P s.
Proof.
  intros H0 Hstep s [es Hrun].
  revert Hrun H0. generalize Session.start as s0.
  induction es as [|e rest IH]; intros s0 Hrun H0; simpl in Hrun.
  - injection Hrun as <-. exact H0.
  - destruct (Session.step e s0) as [s1|] eqn:E; [|discriminate].
    apply (IH s1 Hrun). now apply (Hstep e s0).
Qed.

Lemma valid_row_fields (d : GapminderData) :
  valid_row d = true
  <-> country d <> EmptyString /\ year d <> 0 /\ pop d <> 0.
Proof.
  rewrite valid_row_typed, !andb_true_iff, !negb_true_iff.
  rewrite String.eqb_neq, !Z.eqb_neq. tauto.
Qed.

(** The effect does nothing when no dependency changed or the box is
    unchecked. *)
Lemma commit_quiet (before after : App.State) (pending : list App.Pending) :
  Session.deps_changed before after && App.showPrediction after = false ->
  Session.commit before after pending = Session.mkSys after pending.
Proof. unfold Session.commit. now intros ->. Qed.

Lemma deps_unchanged (before after : App.State) :
  App.selectedCountry after = App.selectedCountry before ->
  App.showPrediction after = App.showPrediction before ->
  Session.deps_changed before after = false.
Proof.
  unfold Session.deps_changed. intros -> ->.
  rewrite String.eqb_refl, Bool.eqb_reflx. reflexivity.
Qed.

Lemma fetch_end_frame (o : App.FetchOutcome) (st : App.State) :
  let st' := App.fetchData_end o st in
  App.selectedCountry st' = App.selectedCountry st
  /\ App.showPrediction st' = App.showPrediction st
  /\ App.predicting st' = App.predicting st
  /\ App.loading st' = false.
Proof. destruct o; repeat split. Qed.

(** What [handlePredictionToggle(true)] does when the country has rows. *)
Lemma begin_true_request (st : App.State) (d : GapminderData)
  (rest : list GapminderData) :
  App.countryData st = d :: rest ->
  App.handlePredictionToggle_begin true st
  = (App.setError None (App.setPredicting true (App.setShowPrediction true st)),
     Some (App.mkPending (App.selectedCountry st) (d :: rest)
             (App.mkPrompt (App.selectedCountry st) (App.recentData (d :: rest))
                (JS.math_max (year d) (map year rest) + 1) 2025))).
Proof.
  intros E. unfold App.handlePredictionToggle_begin.
  cbv beta iota zeta delta [negb].
  change (App.countryData (App.setError _ _)) with (App.countryData st).
  rewrite E. reflexivity.
Qed.

Lemma begin_true_empty (st : App.State) :
  App.countryData st = [] ->
  App.handlePredictionToggle_begin true st
  = (App.setPredicting false
       (App.setError
          (Some "No data available for this country to make a prediction.")
          (App.setError None
             (App.setPredicting true (App.setShowPrediction true st)))),
     None).
Proof.
  intros E. unfold App.handlePredictionToggle_begin.
  cbv beta iota zeta delta [negb].
  change (App.countryData (App.setError _ _)) with (App.countryData st).
  rewrite E. reflexivity.
Qed.

(** ** Loading the dataset *)

(** X1.  When the pending load ends in an error (HTTP status, rejected
    fetch, parse errors, parser failure), nothing of the dataset, the
    selection, the checkbox or the pending oracle calls changes; the
    spinner stops and a message is set; and the retry button then starts a
    new load with the message cleared. *)
Theorem load_failure_keeps_state_and_is_retriable
  (s : Session.Sys) (o : App.FetchOutcome) :
  App.loading (Session.view s) = true ->
  is_load_failure o = true ->
  exists s',
    Session.step (Session.FetchReturns o) s = Some s'
    /\ Session.inflight s' = Session.inflight s
    /\ App.data (Session.view s') = App.data (Session.view s)
    /\ App.originalData (Session.view s') = App.originalData (Session.view s)
    /\ App.countries (Session.view s') = App.countries (Session.view s)
    /\ App.selectedCountry (Session.view s') = App.selectedCountry (Session.view s)
    /\ App.showPrediction (Session.view s') = App.showPrediction (Session.view s)
    /\ App.loading (Session.view s') = false
    /\ (exists m, App.error (Session.view s') = Some m)
    /\ exists s'',
        Session.step Session.TryAgain s' = Some s''
        /\ App.loading (Session.view s'') = true
        /\ App.error (Session.view s'') = None
        /\ Session.inflight s'' = Session.inflight s.
Proof.
  intros Hl Hf.
  assert (Hok : Session.outcome_ok o = true) by (destruct o; try reflexivity; discriminate).
  unfold Session.step at 1. rewrite Hl, Hok. cbn [andb].
  destruct (fetch_end_frame o (Session.view s)) as (Hc & Hs & _ & Hl').
  rewrite commit_quiet by (rewrite deps_unchanged; auto).
  eexists. split; [reflexivity|].
  cbn [Session.view Session.inflight].
  assert (He : exists m, App.error (App.fetchData_end o (Session.view s)) = Some m).
  { destruct o; try discriminate; eexists; reflexivity. }
  split; [reflexivity|].
  split; [destruct o; try discriminate; reflexivity|].
  split; [destruct o; try discriminate; reflexivity|].
  split; [destruct o; try discriminate; reflexivity|].
  split; [exact Hc|]. split; [exact Hs|]. split; [exact Hl'|].
  split; [exact He|].
  destruct He as [m Hm].
  unfold Session.step. cbn [Session.view Session.inflight].
  rewrite Hm, Hl'.
  rewrite commit_quiet by (rewrite deps_unchanged; reflexivity).
  eexists. repeat split.
Qed.

Lemma load_failure_keeps_state_and_is_retriable_witness :
  exists s',
    Session.step (Session.FetchReturns (App.HttpNotOk "500")) Session.start
    = Some s'
    /\ Session.inflight s' = Session.inflight Session.start
    /\ App.data (Session.view s') = App.data (Session.view Session.start)
    /\ App.originalData (Session.view s')
       = App.originalData (Session.view Session.start)
    /\ App.countries (Session.view s') = App.countries (Session.view Session.start)
    /\ App.selectedCountry (Session.view s')
       = App.selectedCountry (Session.view Session.start)
    /\ App.showPrediction (Session.view s')
       = App.showPrediction (Session.view Session.start)
    /\ App.loading (Session.view s') = false
    /\ (exists m, App.error (Session.view s') = Some m)
    /\ exists s'',
        Session.step Session.TryAgain s' = Some s''
        /\ App.loading (Session.view s'') = true
        /\ App.error (Session.view s'') = None
        /\ Session.inflight s'' = Session.inflight Session.start.
Proof.
  exact (load_failure_keeps_state_and_is_retriable Session.start
           (App.HttpNotOk "500") eq_refl eq_refl).
Defined.

(** X2.  A successful load commits the same list to the working data set
    and to the dataset: the parsed rows with a non-empty country, a
    non-zero year and a non-zero population, in file order.  The selector
    lists exactly the countries of these rows and never the empty name.
    The message, the checkbox and the selected country are left as they
    are, even when the selected country is not in the new dataset. *)
Theorem load_success_commits_valid_rows
  (rows : list GapminderData) (st : App.State) :
  let st' := App.fetchData_end (App.Parsed rows) st in
  App.data st' = App.originalData st'
  /\ subseq (App.data st') rows
  /\ (forall d, In d (App.data st')
                <-> In d rows /\ country d <> EmptyString
                    /\ year d <> 0 /\ pop d <> 0)
  /\ (forall c, In c (App.countries st')
                <-> exists d, In d (App.data st') /\ country d = c)
  /\ ~ In EmptyString (App.countries st')
  /\ App.loading st' = false
  /\ App.error st' = App.error st
  /\ App.showPrediction st' = App.showPrediction st
  /\ App.selectedCountry st' = App.selectedCountry st.
Proof.
  intros st'.
  assert (Hin : forall d, In d (App.data st')
                          <-> In d rows /\ country d <> EmptyString
                              /\ year d <> 0 /\ pop d <> 0).
  { intros d. unfold st'. cbn [App.fetchData_end App.data App.setData
      App.setOriginalData App.setCountries App.setLoading].
    unfold validData. rewrite filter_In, valid_row_fields. reflexivity. }
  assert (Hc : forall c, In c (App.countries st')
                         <-> exists d, In d (App.data st') /\ country d = c).
  { intros c. apply uniqueCountries_In. }
  split; [reflexivity|]. split; [apply filter_subseq|].
  split; [exact Hin|]. split; [exact Hc|].
  split; [|repeat split].
  intros Hempty. apply Hc in Hempty as (d & Hd & E).
  apply Hin in Hd as (_ & Hne & _). congruence.
Qed.

(** ** One step of a session, taken apart *)

Lemma step_inversion (e : Session.Event) (s s' : Session.Sys) :
  Session.step e s = Some s' ->
  exists after pending,
    s' = Session.commit (Session.view s) after pending
    /\ match e with
       | Session.FetchReturns o =>
           App.loading (Session.view s) = true
           /\ Session.outcome_ok o = true
           /\ after = App.fetchData_end o (Session.view s)
           /\ pending = Session.inflight s
       | Session.TryAgain =>
           (exists m, App.error (Session.view s) = Some m)
           /\ App.loading (Session.view s) = false
           /\ after = App.fetchData_begin (Session.view s)
           /\ pending = Session.inflight s
       | Session.ToggleClick =>
           Session.controls_enabled (Session.view s) = true
           /\ after
              = fst (App.handlePredictionToggle_begin
                       (negb (App.showPrediction (Session.view s)))
                       (Session.view s))
           /\ pending
              = Session.inflight s
                ++ Session.issued
                     (snd (App.handlePredictionToggle_begin
                             (negb (App.showPrediction (Session.view s)))
                             (Session.view s)))
       | Session.SelectCountry c =>
           Session.controls_enabled (Session.view s) = true
           /\ In c (App.countries (Session.view s))
           /\ after = App.setSelectedCountry c (Session.view s)
           /\ pending = Session.inflight s
       | Session.OracleReturns k o =>
           exists p,
             nth_error (Session.inflight s) k = Some p
             /\ after = App.handlePredictionToggle_resume p o (Session.view s)
             /\ pending = Session.drop_nth k (Session.inflight s)
       end.
Proof.
  intros Hstep. destruct e as [o| | |c|k o]; unfold Session.step in Hstep.
  - destruct (App.loading (Session.view s) && Session.outcome_ok o) eqn:G;
      [|discriminate].
    apply andb_prop in G as [Hl Hok]. injection Hstep as <-.
    do 2 eexists. repeat split; assumption.
  - destruct (App.error (Session.view s)) as [m|] eqn:He; [|discriminate].
    destruct (App.loading (Session.view s)) eqn:Hl; [discriminate|].
    injection Hstep as <-.
    do 2 eexists. split; [reflexivity|]. split; [now exists m|].
    repeat split.
  - destruct (Session.controls_enabled (Session.view s)) eqn:Hen; [|discriminate].
    destruct (App.handlePredictionToggle_begin _ (Session.view s)) as [st' req].
    injection Hstep as <-.
    do 2 eexists. repeat split.
  - destruct (Session.controls_enabled (Session.view s)
              && existsb (String.eqb c) (App.countries (Session.view s))) eqn:G;
      [|discriminate].
    apply andb_prop in G as [Hen Hc]. apply existsb_eqb_In in Hc.
    injection Hstep as <-.
    do 2 eexists. repeat split; assumption.
  - destruct (nth_error (Session.inflight s) k) as [p|] eqn:Hp; [|discriminate].
    injection Hstep as <-.
    do 2 eexists. split; [reflexivity|]. exists p. repeat split.
Qed.

(** The effect either stays quiet or calls [handlePredictionToggle(true)]
    once, on the state just committed. *)
Lemma commit_cases (before after : App.State) (pending : list App.Pending) :
  Session.commit before after pending = Session.mkSys after pending
  \/ (Session.deps_changed before after = true
      /\ App.showPrediction after = true
      /\ Session.commit before after pending
         = Session.mkSys
             (fst (App.handlePredictionToggle_begin true after))
             (pending
              ++ Session.issued
                   (snd (App.handlePredictionToggle_begin true after)))).
Proof.
  unfold Session.commit.
  destruct (Session.deps_changed before after); cbn [andb]; [|now left].
  destruct (App.showPrediction after); [|now left].
  right. destruct (App.handlePredictionToggle_begin true after). repeat split.
Qed.

Lemma commit_view_frame (before after : App.State) (pending : list App.Pending) :
  let v := Session.view (Session.commit before after pending) in
  App.data v = App.data after
  /\ App.originalData v = App.originalData after
  /\ App.countries v = App.countries after
  /\ App.selectedCountry v = App.selectedCountry after
  /\ App.showPrediction v = App.showPrediction after.
Proof.
  destruct (commit_cases before after pending) as [->|(_ & Hs & ->)].
  - repeat split.
  - cbn [Session.view].
    destruct (begin_true_frame after) as (Hd & Ho & Hc & Hk & Hp).
    rewrite Hs. repeat split; assumption.
Qed.

(** ** What every reachable state satisfies *)

Lemma invariants_ext (st st' : App.State) :
  App.data st' = App.data st ->
  App.originalData st' = App.originalData st ->
  App.countries st' = App.countries st ->
  consistent st /\ dataset_valid st /\ indexed st /\ single_forecast st ->
  consistent st' /\ dataset_valid st' /\ indexed st' /\ single_forecast st'.
Proof.
  unfold consistent, dataset_valid, indexed, single_forecast.
  intros -> -> ->. tauto.
Qed.

Lemma valid_rows_valid {R : Type} `{RowFields R} (rows : list R) :
  Forall (fun d => valid_row d = true) (validData rows).
Proof.
  apply Forall_forall. intros d Hd.
  now apply filter_In in Hd as [_ Hd].
Qed.

Lemma invariants_fetch_end (o : App.FetchOutcome) (st : App.State) :
  Session.outcome_ok o = true ->
  consistent st /\ dataset_valid st /\ indexed st /\ single_forecast st ->
  let st' := App.fetchData_end o st in
  consistent st' /\ dataset_valid st' /\ indexed st' /\ single_forecast st'.
Proof.
  intros Hok Hinv st'.
  destruct (is_load_failure o) eqn:Hf.
  - apply (invariants_ext st); try exact Hinv;
      destruct o; try discriminate; reflexivity.
  - destruct o as [ | | | |rows]; try discriminate.
    split; [now apply consistent_fetch_end|].
    split; [apply valid_rows_valid|].
    split; [reflexivity|].
    exists EmptyString. unfold st'.
    cbn [App.fetchData_end App.data App.setData App.setOriginalData
         App.setCountries App.setLoading].
    simpl in Hok. apply csv_rows_historical in Hok.
    unfold validData. rewrite filter_comm, <- Hok, historical_not_predicted.
    constructor.
Qed.

Lemma invariants_begin (checked : bool) (st : App.State) :
  consistent st /\ dataset_valid st /\ indexed st /\ single_forecast st ->
  let st' := fst (App.handlePredictionToggle_begin checked st) in
  consistent st' /\ dataset_valid st' /\ indexed st' /\ single_forecast st'.
Proof.
  intros Hinv st'. destruct checked.
  - destruct (begin_true_frame st) as (Hd & Ho & _ & Hc & _).
    now apply (invariants_ext st).
  - destruct Hinv as (Hc & Hv & Hi & _).
    split; [now apply (consistent_begin false)|].
    split; [exact Hv|]. split; [exact Hi|].
    exists EmptyString. unfold st'. rewrite begin_false_eq.
    cbn [fst App.data App.setData].
    change (App.originalData (App.setShowPrediction false st))
      with (App.originalData st).
    rewrite <- Hc, historical_not_predicted. constructor.
Qed.

Lemma invariants_resume (p : App.Pending) (o : App.OracleOutcome)
  (st : App.State) :
  consistent st /\ dataset_valid st /\ indexed st /\ single_forecast st ->
  let st' := App.handlePredictionToggle_resume p o st in
  consistent st' /\ dataset_valid st' /\ indexed st' /\ single_forecast st'.
Proof.
  intros Hinv st'.
  destruct (resume_frame p o st) as (Ho & _ & Hk & _).
  destruct (is_failure o) eqn:Hf.
  - apply (invariants_ext st); try assumption.
    now apply resume_failure_data.
  - destruct o as [e|m|[items|]]; try discriminate.
    destruct Hinv as (Hc & Hv & Hi & _).
    split; [now apply consistent_resume|].
    split; [exact Hv|]. split; [exact Hi|].
    exists (App.req_country p). unfold st'.
    rewrite resume_success_data, filter_app.
    rewrite historical_not_predicted, batch_all_predicted.
    eapply Forall_impl; [|apply newPredictedData_predicted].
    now intros r [_ Hr].
Qed.

Lemma invariants_commit (before after : App.State) (pending : list App.Pending) :
  consistent after /\ dataset_valid after /\ indexed after
  /\ single_forecast after ->
  let v := Session.view (Session.commit before after pending) in
  consistent v /\ dataset_valid v /\ indexed v /\ single_forecast v.
Proof.
  intros Hinv v.
  destruct (commit_view_frame before after pending) as (Hd & Ho & Hc & _).
  now apply (invariants_ext after).
Qed.

Lemma reachable_invariants (s : Session.Sys) :
  Session.reachable s ->
  consistent (Session.view s) /\ dataset_valid (Session.view s)
  /\ indexed (Session.view s) /\ single_forecast (Session.view s).
Proof.
  revert s. apply reachable_induction.
  - split; [reflexivity|]. split; [constructor|]. split; [reflexivity|].
    exists EmptyString. constructor.
  - intros e s s' Hinv Hstep.
    apply step_inversion in Hstep as (after & pending & -> & Hcase).
    apply invariants_commit.
    destruct e as [o| | |c|k o].
    + destruct Hcase as (_ & Hok & -> & _). now apply invariants_fetch_end.
    + destruct Hcase as (_ & _ & -> & _).
      now apply (invariants_ext (Session.view s)).
    + destruct Hcase as (_ & -> & _). now apply invariants_begin.
    + destruct Hcase as (_ & _ & -> & _).
      now apply (invariants_ext (Session.view s)).
    + destruct Hcase as (p & _ & -> & _). now apply invariants_resume.
Qed.

(** ** Invariants of a session *)

(** X3.  In every reachable state the rows of the working data set that
    are not tagged predicted are exactly the rows of the loaded dataset,
    in the same order; each of them has a non-empty country, a non-zero
    year and a non-zero population; and all the rows tagged predicted
    carry one and the same country. *)
Theorem session_keeps_historical_rows (s : Session.Sys) :
  Session.reachable s ->
  filter not_predicted (App.data (Session.view s))
  = App.originalData (Session.view s)
  /\ Forall (fun d => country d <> EmptyString /\ year d <> 0 /\ pop d <> 0
                      /\ is_predicted d = false)
       (App.originalData (Session.view s))
  /\ exists c,
      Forall (fun r => country r = c)
        (filter is_predicted (App.data (Session.view s))).
Proof.
  intros Hr. destruct (reachable_invariants s Hr) as (Hc & Hv & _ & Hs).
  split; [exact Hc|]. split; [|exact Hs].
  unfold dataset_valid in Hv. rewrite Forall_forall in Hv |- *.
  intros d Hd. specialize (Hv d Hd). apply valid_row_fields in Hv.
  unfold consistent in Hc. rewrite <- Hc in Hd.
  apply filter_In in Hd as [_ Hd]. unfold not_predicted in Hd.
  destruct (is_predicted d); [discriminate|]. tauto.
Qed.

Lemma session_keeps_historical_rows_witness :
  let s := sys_after chile_forecast_shown in
  filter not_predicted (App.data (Session.view s))
  = App.originalData (Session.view s)
  /\ Forall (fun d => country d <> EmptyString /\ year d <> 0 /\ pop d <> 0
                      /\ is_predicted d = false)
       (App.originalData (Session.view s))
  /\ exists c,
      Forall (fun r => country r = c)
        (filter is_predicted (App.data (Session.view s))).
Proof.
  intros s.
  assert (Hr : Session.reachable s).
  { exists chile_forecast_shown. vm_compute. reflexivity. }
  exact (session_keeps_historical_rows s Hr).
Defined.

Lemma filter_nonempty_iff {A : Type} (f : A -> bool) (l : list A) :
  filter f l <> [] <-> exists x, In x l /\ f x = true.
Proof.
  split.
  - destruct (filter f l) as [|x t] eqn:E; [now intros H|].
    intros _. exists x. apply filter_In. rewrite E. now left.
  - intros (x & Hx & Hf) E.
    assert (Hin : In x (filter f l)) by now apply filter_In.
    rewrite E in Hin. destruct Hin.
Qed.

Lemma indexed_country_rows (st : App.State) (c : string) :
  indexed st ->
  (In c (App.countries st)
   <-> App.countryData (App.setSelectedCountry c st) <> []).
Proof.
  unfold indexed, App.countryData. intros ->.
  cbn [App.selectedCountry App.originalData App.setSelectedCountry].
  rewrite uniqueCountries_In, filter_nonempty_iff.
  split; intros (d & Hd & E); exists d; split; try assumption.
  - now apply String.eqb_eq.
  - now apply String.eqb_eq in E.
Qed.

(** X4.  In every reachable state the selector offers exactly the
    countries that have at least one row in the loaded dataset: for an
    offered country the "no data" branch of the toggle handler cannot be
    taken. *)
Theorem offered_countries_have_rows (s : Session.Sys) (c : string) :
  Session.reachable s ->
  (In c (App.countries (Session.view s))
   <-> App.countryData (App.setSelectedCountry c (Session.view s)) <> []).
Proof.
  intros Hr. apply indexed_country_rows.
  now destruct (reachable_invariants s Hr) as (_ & _ & Hi & _).
Qed.

Lemma offered_countries_have_rows_witness :
  In "Chile" (App.countries (Session.view (sys_after box_checked)))
  <-> App.countryData
        (App.setSelectedCountry "Chile" (Session.view (sys_after box_checked)))
      <> [].
Proof.
  assert (Hr : Session.reachable (sys_after box_checked)).
  { exists box_checked. vm_compute. reflexivity. }
  exact (offered_countries_have_rows (sys_after box_checked) "Chile" Hr).
Defined.

(** ** Requests issued by the controls *)

(** X5.  Checking the box for a country that has rows issues two
    identical requests, one from the click handler and one from the effect
    that reacts to the checked box; the box is checked, the busy flag is
    set, the message is cleared and the working data set is untouched. *)
Theorem checking_box_issues_two_requests (s : Session.Sys) :
  Session.controls_enabled (Session.view s) = true ->
  App.showPrediction (Session.view s) = false ->
  App.countryData (Session.view s) <> [] ->
  exists s' p,
    Session.step Session.ToggleClick s = Some s'
    /\ Session.inflight s' = Session.inflight s ++ [p; p]
    /\ App.req_country p = App.selectedCountry (Session.view s)
    /\ App.req_countryData p = App.countryData (Session.view s)
    /\ App.showPrediction (Session.view s') = true
    /\ App.predicting (Session.view s') = true
    /\ App.error (Session.view s') = None
    /\ App.data (Session.view s') = App.data (Session.view s).
Proof.
  intros Hen Hs Hne.
  destruct (App.countryData (Session.view s)) as [|d rest] eqn:E;
    [now destruct Hne|].
  unfold Session.step. rewrite Hen, Hs. cbn [negb].
  rewrite (begin_true_request _ d rest E).
  set (st1 := App.setError None
                (App.setPredicting true
                   (App.setShowPrediction true (Session.view s)))).
  assert (E1 : App.countryData st1 = d :: rest) by exact E.
  unfold Session.commit.
  replace (Session.deps_changed (Session.view s) st1) with true.
  2:{ unfold Session.deps_changed.
      replace (App.showPrediction st1) with true by reflexivity.
      rewrite Hs. cbn [Bool.eqb negb]. now rewrite orb_true_r. }
  replace (App.showPrediction st1) with true by reflexivity.
  cbn [andb].
  rewrite (begin_true_request _ d rest E1).
  do 2 eexists. split; [reflexivity|].
  cbn [Session.inflight Session.view Session.issued].
  split; [now rewrite <- app_assoc|].
  repeat split.
Qed.

Lemma checking_box_issues_two_requests_witness :
  let s := sys_after [ Session.FetchReturns (App.Parsed two_countries) ] in
  exists s' p,
    Session.step Session.ToggleClick s = Some s'
    /\ Session.inflight s' = Session.inflight s ++ [p; p]
    /\ App.req_country p = App.selectedCountry (Session.view s)
    /\ App.req_countryData p = App.countryData (Session.view s)
    /\ App.showPrediction (Session.view s') = true
    /\ App.predicting (Session.view s') = true
    /\ App.error (Session.view s') = None
    /\ App.data (Session.view s') = App.data (Session.view s).
Proof.
  intros s.
  assert (Hen : Session.controls_enabled (Session.view s) = true)
    by (vm_compute; reflexivity).
  assert (Hs : App.showPrediction (Session.view s) = false)
    by (vm_compute; reflexivity).
  assert (Hne : App.countryData (Session.view s) <> [])
    by (vm_compute; discriminate).
  exact (checking_box_issues_two_requests s Hen Hs Hne).
Defined.

(** X6.  Selecting another offered country in a reachable state with the
    controls enabled changes the selection and leaves the working data set
    untouched.  With the box unchecked nothing else happens and no request
    is issued; with the box checked exactly one request is issued, for the
    new country, the busy flag is set and the message is cleared. *)
Theorem selecting_country_requests_at_most_once
  (s : Session.Sys) (c : string) :
  Session.reachable s ->
  Session.controls_enabled (Session.view s) = true ->
  In c (App.countries (Session.view s)) ->
  c <> App.selectedCountry (Session.view s) ->
  exists s',
    Session.step (Session.SelectCountry c) s = Some s'
    /\ App.selectedCountry (Session.view s') = c
    /\ App.data (Session.view s') = App.data (Session.view s)
    /\ (App.showPrediction (Session.view s) = false ->
        s' = Session.mkSys (App.setSelectedCountry c (Session.view s))
               (Session.inflight s))
    /\ (App.showPrediction (Session.view s) = true ->
        exists p,
          Session.inflight s' = Session.inflight s ++ [p]
          /\ App.req_country p = c
          /\ App.predicting (Session.view s') = true
          /\ App.error (Session.view s') = None).
Proof.
  intros Hr Hen Hin Hne.
  destruct (reachable_invariants s Hr) as (_ & _ & Hi & _).
  pose proof (proj1 (indexed_country_rows _ c Hi) Hin) as Hrows.
  unfold Session.step. rewrite Hen.
  rewrite (proj2 (existsb_eqb_In c _) Hin). cbn [andb].
  set (st1 := App.setSelectedCountry c (Session.view s)) in *.
  unfold Session.commit.
  replace (Session.deps_changed (Session.view s) st1) with true.
  2:{ unfold Session.deps_changed.
      replace (App.selectedCountry st1) with c by reflexivity.
      assert (Hneq : String.eqb (App.selectedCountry (Session.view s)) c = false)
        by (apply String.eqb_neq; congruence).
      now rewrite Hneq. }
  replace (App.showPrediction st1)
    with (App.showPrediction (Session.view s)) by reflexivity.
  cbn [andb].
  destruct (App.showPrediction (Session.view s)) eqn:Hs.
  - destruct (App.countryData st1) as [|d rest] eqn:E; [now destruct Hrows|].
    rewrite (begin_true_request _ d rest E).
    eexists. split; [reflexivity|].
    cbn [Session.inflight Session.view Session.issued].
    split; [reflexivity|]. split; [reflexivity|].
    split; [discriminate|].
    intros _. eexists. repeat split.
  - eexists. split; [reflexivity|].
    split; [reflexivity|]. split; [reflexivity|].
    split; [reflexivity|discriminate].
Qed.

Lemma selecting_country_requests_at_most_once_witness :
  let s := sys_after first_answer_merged in
  exists s',
    Session.step (Session.SelectCountry "Chile") s = Some s'
    /\ App.selectedCountry (Session.view s') = "Chile"
    /\ App.data (Session.view s') = App.data (Session.view s)
    /\ (App.showPrediction (Session.view s) = false ->
        s' = Session.mkSys (App.setSelectedCountry "Chile" (Session.view s))
               (Session.inflight s))
    /\ (App.showPrediction (Session.view s) = true ->
        exists p,
          Session.inflight s' = Session.inflight s ++ [p]
          /\ App.req_country p = "Chile"
          /\ App.predicting (Session.view s') = true
          /\ App.error (Session.view s') = None).
Proof.
  intros s.
  assert (Hr : Session.reachable s).
  { exists first_answer_merged. vm_compute. reflexivity. }
  assert (Hen : Session.controls_enabled (Session.view s) = true)
    by (vm_compute; reflexivity).
  assert (Hin : In "Chile" (App.countries (Session.view s)))
    by (vm_compute; auto).
  assert (Hne : "Chile" <> App.selectedCountry (Session.view s))
    by (vm_compute; discriminate).
  exact (selecting_country_requests_at_most_once s "Chile" Hr Hen Hin Hne).
Defined.

(** ** Answers of the oracle *)

Lemma drop_nth_length {A : Type} (k : nat) (l : list A) (x : A) :
  nth_error l k = Some x -> S (List.length (Session.drop_nth k l)) = List.length l.
Proof.
  intros Hk.
  assert (Hlt : (k < List.length l)%nat).
  { apply nth_error_Some. congruence. }
  unfold Session.drop_nth.
  rewrite length_app, length_firstn, length_skipn. lia.
Qed.

Lemma resume_quiet (p : App.Pending) (o : App.OracleOutcome) (st : App.State) :
  Session.deps_changed st (App.handlePredictionToggle_resume p o st)
  && App.showPrediction (App.handlePredictionToggle_resume p o st)
  = false.
Proof.
  destruct o as [e|m|[items|]];
    try (replace (App.showPrediction (App.handlePredictionToggle_resume _ _ st))
           with false by reflexivity; apply andb_false_r).
  rewrite deps_unchanged by reflexivity. reflexivity.
Qed.

(** X7.  An answer of the oracle, whatever it is, never makes the
    component issue a request: the answered call leaves the pending ones,
    which are otherwise unchanged, the busy flag is cleared, and the
    selection and the dataset stay as they are.  In particular a failed
    request is not retried. *)
Theorem answer_never_issues_request
  (s s' : Session.Sys) (k : nat) (o : App.OracleOutcome) :
  Session.step (Session.OracleReturns k o) s = Some s' ->
  Session.inflight s' = Session.drop_nth k (Session.inflight s)
  /\ S (List.length (Session.inflight s')) = List.length (Session.inflight s)
  /\ App.predicting (Session.view s') = false
  /\ App.selectedCountry (Session.view s') = App.selectedCountry (Session.view s)
  /\ App.originalData (Session.view s') = App.originalData (Session.view s)
  /\ App.countries (Session.view s') = App.countries (Session.view s).
Proof.
  intros Hstep.
  apply step_inversion in Hstep as (after & pending & -> & p & Hp & -> & ->).
  rewrite commit_quiet by apply resume_quiet.
  cbn [Session.inflight Session.view].
  destruct (resume_frame p o (Session.view s)) as (Ho & Hc & Hk & Hb).
  split; [reflexivity|]. split; [now apply (drop_nth_length k _ p)|].
  repeat split; assumption.
Qed.

Lemma answer_never_issues_request_witness :
  let s := sys_after box_checked in
  let s' := sys_after (box_checked
                       ++ [Session.OracleReturns 1 (App.Rejected App.ThrownOther)]) in
  Session.inflight s' = Session.drop_nth 1 (Session.inflight s)
  /\ S (List.length (Session.inflight s')) = List.length (Session.inflight s)
  /\ App.predicting (Session.view s') = false
  /\ App.selectedCountry (Session.view s') = App.selectedCountry (Session.view s)
  /\ App.originalData (Session.view s') = App.originalData (Session.view s)
  /\ App.countries (Session.view s') = App.countries (Session.view s).
Proof.
  intros s s'.
  assert (Hstep : Session.step
                    (Session.OracleReturns 1 (App.Rejected App.ThrownOther)) s
                  = Some s') by (vm_compute; reflexivity).
  exact (answer_never_issues_request s s' 1 _ Hstep).
Defined.

Lemma begin_true_busy (st : App.State) :
  App.predicting (fst (App.handlePredictionToggle_begin true st)) = true ->
  exists p, snd (App.handlePredictionToggle_begin true st) = Some p.
Proof.
  destruct (App.countryData st) as [|d rest] eqn:E.
  - rewrite (begin_true_empty st E). cbn [fst App.predicting App.setPredicting].
    discriminate.
  - rewrite (begin_true_request st d rest E). intros _. eexists. reflexivity.
Qed.

(** X8.  In every reachable state a set busy flag means that at least one
    oracle call is pending, so the disabled controls are always released
    by some answer.  (The converse fails: after the first of the two
    answers of a click the flag is cleared while a call is pending.) *)
Theorem busy_flag_has_pending_call (s : Session.Sys) :
  Session.reachable s ->
  App.predicting (Session.view s) = true ->
  Session.inflight s <> [].
Proof.
  revert s.
  apply (reachable_induction
           (fun s => App.predicting (Session.view s) = true
                     -> Session.inflight s <> [])); [discriminate|].
  intros e s s' IH Hstep.
  apply step_inversion in Hstep as (after & pending & -> & Hcase).
  assert (Hafter : App.predicting after = true -> pending <> []).
  { destruct e as [o| | |c|k o].
    - destruct Hcase as (_ & _ & -> & ->).
      destruct (fetch_end_frame o (Session.view s)) as (_ & _ & -> & _).
      exact IH.
    - destruct Hcase as (_ & _ & -> & ->). exact IH.
    - destruct Hcase as (Hen & -> & ->).
      assert (Hp : App.predicting (Session.view s) = false).
      { unfold Session.controls_enabled in Hen.
        apply andb_prop in Hen as [_ Hen]. now apply negb_true_iff in Hen. }
      destruct (App.showPrediction (Session.view s)); cbn [negb].
      + rewrite begin_false_eq. cbn [fst App.predicting App.setData
          App.setShowPrediction]. congruence.
      + intros Hb. apply begin_true_busy in Hb as [p ->].
        cbn [Session.issued]. intros E. now apply app_eq_nil in E as [_ E].
    - destruct Hcase as (Hen & _ & -> & ->).
      unfold Session.controls_enabled in Hen.
      apply andb_prop in Hen as [_ Hen]. apply negb_true_iff in Hen.
      cbn [App.predicting App.setSelectedCountry]. congruence.
    - destruct Hcase as (p & _ & -> & ->).
      destruct (resume_frame p o (Session.view s)) as (_ & _ & _ & Hb).
      congruence. }
  destruct (commit_cases (Session.view s) after pending) as [->|(_ & _ & ->)].
  - exact Hafter.
  - cbn [Session.view Session.inflight].
    intros Hb. apply begin_true_busy in Hb as [p ->].
    cbn [Session.issued]. intros E. now apply app_eq_nil in E as [_ E].
Qed.

Lemma busy_flag_has_pending_call_witness :
  App.predicting (Session.view (sys_after box_checked)) = true
  /\ Session.inflight (sys_after box_checked) <> [].
Proof.
  assert (Hr : Session.reachable (sys_after box_checked)).
  { exists box_checked. vm_compute. reflexivity. }
  assert (Hb : App.predicting (Session.view (sys_after box_checked)) = true)
    by (vm_compute; reflexivity).
  split; [exact Hb|].
  exact (busy_flag_has_pending_call (sys_after box_checked) Hr Hb).
Defined.

(** ** The rows built from an answer *)

Lemma str_or_empty (s : string) : JS.str_or s EmptyString = s.
Proof.
  unfold JS.str_or. destruct (String.eqb s EmptyString) eqn:E; [|reflexivity].
  now apply String.eqb_eq in E.
Qed.

Lemma num_or_zero (n : Z) : JS.num_or n 0 = n.
Proof.
  unfold JS.num_or. destruct (Z.eqb n 0) eqn:E; [|reflexivity].
  now apply Z.eqb_eq in E.
Qed.

Lemma newPredictedData_items (p : App.Pending) (items : list App.YearPop) :
  map (fun r => App.mkYearPop (year r) (pop r)) (App.newPredictedData p items)
  = items.
Proof.
  unfold App.newPredictedData.
  induction items as [|[y n] t IH]; [reflexivity|].
  cbn [map]. rewrite IH. reflexivity.
Qed.

(** X9.  A merged answer is kept verbatim: the predicted rows of the data
    set, read back as year/population pairs, are the items of the answer
    in their order, with no clamping to the requested range and no
    removal of repeated years.  Each of these rows carries the country of
    the request, zero life expectancy and GDP, and the continent and ISO
    codes of the first row the request was made from. *)
Theorem merged_answer_is_verbatim
  (st : App.State) (p : App.Pending) (items : list App.YearPop) :
  let st' :=
    App.handlePredictionToggle_resume p (App.Decoded (App.JArray items)) st in
  map (fun r => App.mkYearPop (year r) (pop r))
    (filter is_predicted (App.data st'))
  = items
  /\ Forall (fun r => country r = App.req_country p
                      /\ lifeExp r = 0%Q /\ gdpPercap r = 0%Q
                      /\ predicted r = Some true)
       (filter is_predicted (App.data st'))
  /\ (forall d0 rest,
         App.req_countryData p = d0 :: rest ->
         Forall (fun r => continent r = continent d0
                          /\ iso_alpha r = iso_alpha d0
                          /\ iso_num r = iso_num d0)
           (filter is_predicted (App.data st')))
  /\ List.length (App.data st')
     = (List.length (filter not_predicted (App.data st)) + List.length items)%nat.
Proof.
  intros st'.
  assert (Hp : filter is_predicted (App.data st') = App.newPredictedData p items).
  { unfold st'. rewrite resume_success_data, filter_app.
    now rewrite historical_not_predicted, batch_all_predicted. }
  rewrite Hp. split; [apply newPredictedData_items|].
  split; [|split].
  - apply Forall_forall. intros r Hr.
    apply in_map_iff in Hr as (v & <- & _). repeat split.
  - intros d0 rest E. apply Forall_forall. intros r Hr.
    apply in_map_iff in Hr as (v & <- & _).
    cbn [continent iso_alpha iso_num]. rewrite E. cbn [hd_error].
    now rewrite !str_or_empty, num_or_zero.
  - unfold st'. rewrite resume_success_data, length_app.
    unfold App.newPredictedData. now rewrite length_map.
Qed.

(** ** The boundary year *)

Lemma lastHistoricalYear_historical (l1 l2 : list GapminderData) :
  filter not_predicted l1 = filter not_predicted l2 ->
  lastHistoricalYear l1 = lastHistoricalYear l2.
Proof.
  unfold lastHistoricalYear.
  change (fun d => negb (is_predicted d)) with not_predicted.
  now intros ->.
Qed.

Lemma workingSeries_after_answer (p : App.Pending) (o : App.OracleOutcome)
  (st : App.State) :
  filter not_predicted (App.workingSeries (App.handlePredictionToggle_resume p o st))
  = filter not_predicted (App.workingSeries st).
Proof.
  unfold App.workingSeries.
  destruct (resume_frame p o st) as (_ & -> & _).
  destruct (is_failure o) eqn:Hf.
  - now rewrite resume_failure_data.
  - destruct o as [e|m|[items|]]; try discriminate.
    rewrite resume_success_data, !filteredData_historical.
    now rewrite filter_app, filter_idem, batch_not_historical, app_nil_r.
Qed.

(** X10.  No answer of the oracle, merged or failed, whatever country it
    was requested for, moves the boundary year of the working series. *)
Theorem boundary_unchanged_by_answers
  (st : App.State) (p : App.Pending) (o : App.OracleOutcome) :
  App.boundaryYear (App.handlePredictionToggle_resume p o st)
  = App.boundaryYear st.
Proof.
  unfold App.boundaryYear.
  apply lastHistoricalYear_historical, workingSeries_after_answer.
Qed.

Lemma is_max_year_unique (m1 m2 : Z) (l1 l2 : list GapminderData) :
  is_max_year m1 l1 -> is_max_year m2 l2 ->
  (forall r, In r l1 <-> In r l2) -> m1 = m2.
Proof.
  intros [Hin1 Hub1] [Hin2 Hub2] Hsame.
  apply in_map_iff in Hin1 as (r1 & <- & Hr1).
  apply in_map_iff in Hin2 as (r2 & <- & Hr2).
  pose proof (Hub2 r1 (proj1 (Hsame r1) Hr1)).
  pose proof (Hub1 r2 (proj2 (Hsame r2) Hr2)).
  lia.
Qed.

Lemma begin_true_issued (st st' : App.State) (p : App.Pending) :
  App.handlePredictionToggle_begin true st = (st', Some p) ->
  exists d rest,
    App.countryData st = d :: rest
    /\ p = App.mkPending (App.selectedCountry st) (d :: rest)
             (App.mkPrompt (App.selectedCountry st) (App.recentData (d :: rest))
                (JS.math_max (year d) (map year rest) + 1) 2025).
Proof.
  destruct (App.countryData st) as [|d rest] eqn:E.
  - rewrite (begin_true_empty st E). discriminate.
  - rewrite (begin_true_request st d rest E). intros H.
    injection H as _ <-. now exists d, rest.
Qed.

(** X11.  When a request is issued from a state whose non-predicted rows
    are the dataset, the range it asks for starts exactly one year after
    the boundary year the chart shows for the selected country, and every
    year of the context handed to the oracle lies before the start of the
    range. *)
Theorem request_starts_after_boundary
  (st st' : App.State) (p : App.Pending) :
  consistent st ->
  App.handlePredictionToggle_begin true st = (st', Some p) ->
  App.boundaryYear st = Some (App.prompt_from (App.req_prompt p) - 1)
  /\ forall e, In e (App.prompt_recent (App.req_prompt p)) ->
               App.yp_year e < App.prompt_from (App.req_prompt p).
Proof.
  intros Hc Hb.
  apply begin_true_issued in Hb as (d & rest & E & ->).
  cbn [App.req_prompt App.prompt_from App.prompt_recent].
  pose proof (math_max_years d rest) as Hmax.
  split.
  - unfold App.boundaryYear, lastHistoricalYear.
    change (fun d => negb (is_predicted d)) with not_predicted.
    unfold App.workingSeries. rewrite filteredData_historical, Hc.
    change (filteredData (App.originalData st) (App.selectedCountry st))
      with (JS.sort by_year (App.countryData st)).
    rewrite E.
    destruct (JS.sort by_year (d :: rest)) as [|d' rest'] eqn:Es.
    + pose proof (sort_perm by_year (d :: rest)) as Hperm.
      rewrite Es in Hperm. now apply Permutation_nil in Hperm.
    + f_equal.
      rewrite (is_max_year_unique _ _ _ _ (math_max_years d' rest') Hmax);
        [lia|].
      intros r. rewrite <- Es. apply sort_In.
  - intros e He. unfold App.recentData in He.
    apply in_map_iff in He as (r & <- & Hr). cbn [App.yp_year].
    destruct (slice_last_suffix 10 (d :: rest)) as [front Hfront].
    assert (Hin : In r (d :: rest)).
    { rewrite Hfront. apply in_or_app. now right. }
    destruct Hmax as [_ Hub]. specialize (Hub r Hin). lia.
Qed.

Lemma request_starts_after_boundary_witness :
  let st := Session.view (sys_after first_answer_merged) in
  consistent st
  /\ App.boundaryYear st = Some (App.prompt_from (App.req_prompt pending_canada) - 1)
  /\ forall e, In e (App.prompt_recent (App.req_prompt pending_canada)) ->
               App.yp_year e < App.prompt_from (App.req_prompt pending_canada).
Proof.
  intros st.
  assert (Hc : consistent st) by (vm_compute; reflexivity).
  assert (Hb : App.handlePredictionToggle_begin true st
               = (App.setError None (App.setPredicting true st),
                  Some pending_canada)) by (vm_compute; reflexivity).
  split; [exact Hc|].
  exact (request_starts_after_boundary st _ pending_canada Hc Hb).
Defined.

(** ** The "Prediction" area of the chart *)




(** ** Reloading *)

(** X13.  A load that returns parsed rows replaces the working data set
    by the valid rows, so no predicted row survives it, but it leaves the
    checkbox, the selected country, the busy flag and the pending oracle
    calls as they are and issues no request: after a reload the box can be
    checked with no forecast in the data. *)
Theorem reload_discards_forecast_keeps_checkbox
  (s : Session.Sys) (rows : list GapminderData) :
  App.loading (Session.view s) = true ->
  Session.csv_rows rows = true ->
  exists s',
    Session.step (Session.FetchReturns (App.Parsed rows)) s = Some s'
    /\ Session.inflight s' = Session.inflight s
    /\ App.showPrediction (Session.view s') = App.showPrediction (Session.view s)
    /\ App.selectedCountry (Session.view s') = App.selectedCountry (Session.view s)
    /\ App.predicting (Session.view s') = App.predicting (Session.view s)
    /\ App.data (Session.view s') = validData rows
    /\ filter is_predicted (App.data (Session.view s')) = [].
Proof.
  intros Hl Hcsv.
  unfold Session.step. rewrite Hl. cbn [Session.outcome_ok andb]. rewrite Hcsv.
  rewrite commit_quiet by (rewrite deps_unchanged; reflexivity).
  eexists. split; [reflexivity|].
  cbn [Session.inflight Session.view].
  do 5 (split; [reflexivity|]).
  cbn [App.fetchData_end App.data App.setData App.setOriginalData
       App.setCountries App.setLoading].
  apply csv_rows_historical in Hcsv.
  unfold validData. rewrite filter_comm, <- Hcsv.
  now rewrite historical_not_predicted.
Qed.

Lemma reload_discards_forecast_keeps_checkbox_witness :
  let s := sys_after retry_under_way in
  App.showPrediction (Session.view s) = true
  /\ exists s',
      Session.step (Session.FetchReturns (App.Parsed two_countries)) s = Some s'
      /\ Session.inflight s' = Session.inflight s
      /\ App.showPrediction (Session.view s') = App.showPrediction (Session.view s)
      /\ App.selectedCountry (Session.view s')
         = App.selectedCountry (Session.view s)
      /\ App.predicting (Session.view s') = App.predicting (Session.view s)
      /\ App.data (Session.view s') = validData two_countries
      /\ filter is_predicted (App.data (Session.view s')) = [].
Proof.
  intros s. split; [vm_compute; reflexivity|].
  assert (Hl : App.loading (Session.view s) = true) by (vm_compute; reflexivity).
  assert (Hcsv : Session.csv_rows two_countries = true)
    by (vm_compute; reflexivity).
  exact (reload_discards_forecast_keeps_checkbox s two_countries Hl Hcsv).
Defined.

(** ** An answer for the selected country *)

(** X14.  When an answer for the selected country is merged, the working
    series becomes its non-predicted rows together with the rows of the
    answer, sorted by year.  The handler does not look at the checkbox and
    leaves it and the message as they are: an answer that arrives after
    the box was unchecked still puts its rows into the series. *)
Theorem answer_for_selected_country_is_shown
  (st : App.State) (p : App.Pending) (items : list App.YearPop) :
  App.req_country p = App.selectedCountry st ->
  let st' :=
    App.handlePredictionToggle_resume p (App.Decoded (App.JArray items)) st in
  Permutation (App.workingSeries st')
    (filter not_predicted (App.workingSeries st) ++ App.newPredictedData p items)
  /\ StronglySorted year_le (App.workingSeries st')
  /\ App.showPrediction st' = App.showPrediction st
  /\ App.error st' = App.error st.
Proof.
  intros Hsel st'. split; [|split; [apply filteredData_sorted|split; reflexivity]].
  unfold App.workingSeries.
  replace (App.selectedCountry st') with (App.selectedCountry st) by reflexivity.
  rewrite <- Hsel.
  unfold st'. rewrite resume_success_data, filteredData_historical.
  unfold filteredData at 1. rewrite filter_app, batch_of_country.
  eapply Permutation_trans; [apply sort_perm|].
  apply Permutation_app_tail, Permutation_sym, sort_perm.
Qed.

Lemma answer_for_selected_country_is_shown_witness :
  let st := Session.view (sys_after unchecked_with_pending_call) in
  let st' :=
    App.handlePredictionToggle_resume pending_canada
      (App.Decoded (App.JArray batch_2008_2025)) st in
  App.showPrediction st = false
  /\ App.req_country pending_canada = App.selectedCountry st
  /\ Permutation (App.workingSeries st')
       (filter not_predicted (App.workingSeries st)
        ++ App.newPredictedData pending_canada batch_2008_2025)
  /\ StronglySorted year_le (App.workingSeries st')
  /\ App.showPrediction st' = App.showPrediction st
  /\ App.error st' = App.error st.
Proof.
  intros st st'.
  assert (Hsel : App.req_country pending_canada = App.selectedCountry st)
    by (vm_compute; reflexivity).
  split; [vm_compute; reflexivity|]. split; [exact Hsel|].
  exact (answer_for_selected_country_is_shown st pending_canada
           batch_2008_2025 Hsel).
Defined.

(** ** The list of countries *)

Lemma uniqueCountries_sorted (rows : list GapminderData) :
  StronglySorted str_le (uniqueCountries rows).
Proof.
  unfold uniqueCountries.
  apply StronglySorted_impl with (R := le_of JS.default_cmp).
  - intros a b. apply default_cmp_le.
  - apply sort_sorted; [apply default_cmp_total | apply default_cmp_trans].
Qed.

Lemma uniqueCountries_NoDup (rows : list GapminderData) :
  NoDup (uniqueCountries rows).
Proof.
  unfold uniqueCountries.
  apply (Permutation_NoDup (l := JS.set_of (map country rows))).
  - apply Permutation_sym, sort_perm.
  - apply set_add_all_NoDup. constructor.
Qed.

Lemma sorted_nodup_unique (l1 l2 : list string) :
  StronglySorted str_le l1 -> NoDup l1 ->
  StronglySorted str_le l2 -> NoDup l2 ->
  (forall x, In x l1 <-> In x l2) -> l1 = l2.
Proof.
  intros Hs1. revert l2.
  induction Hs1 as [|a t1 Hs1 IH Ha]; intros l2 Hn1 Hs2 Hn2 Hsame.
  - destruct l2 as [|b t2]; [reflexivity|].
    destruct (proj2 (Hsame b) (or_introl eq_refl)).
  - destruct l2 as [|b t2].
    + destruct (proj1 (Hsame a) (or_introl eq_refl)).
    + inversion Hs2 as [|b' t2' Hs2' Hb]; subst.
      inversion Hn1 as [|a' t1' Ha1 Hn1']; subst.
      inversion Hn2 as [|b' t2' Hb2 Hn2']; subst.
      rewrite Forall_forall in Ha, Hb.
      assert (Hab : a = b).
      { destruct (proj1 (Hsame a) (or_introl eq_refl)) as [E|Hin]; [now symmetry|].
        destruct (proj2 (Hsame b) (or_introl eq_refl)) as [E|Hin']; [exact E|].
        apply String.leb_antisym; [now apply Ha | now apply Hb]. }
      subst b. f_equal. apply IH; try assumption.
      intros x. split; intros Hx.
      * destruct (proj1 (Hsame x) (or_intror Hx)) as [E|Hin]; [|exact Hin].
        subst x. contradiction.
      * destruct (proj2 (Hsame x) (or_intror Hx)) as [E|Hin]; [|exact Hin].
        subst x. contradiction.
Qed.

(** X15.  The list of countries offered by the selector depends only on
    which country values occur in the rows: the order of the rows in the
    file and repeated rows make no difference. *)
Theorem uniqueCountries_depends_on_values_only
  (rows1 rows2 : list GapminderData) :
  (forall c, In c (map country rows1) <-> In c (map country rows2)) ->
  uniqueCountries rows1 = uniqueCountries rows2.
Proof.
  intros Hsame. apply sorted_nodup_unique;
    try apply uniqueCountries_sorted; try apply uniqueCountries_NoDup.
  intros c. rewrite !uniqueCountries_In.
  specialize (Hsame c). rewrite !in_map_iff in Hsame.
  split; intros (r & Hr & E).
  - destruct (proj1 Hsame (ex_intro _ r (conj E Hr))) as (r' & E' & Hr').
    now exists r'.
  - destruct (proj2 Hsame (ex_intro _ r (conj E Hr))) as (r' & E' & Hr').
    now exists r'.
Qed.

Lemma uniqueCountries_depends_on_values_only_witness :
  uniqueCountries two_countries = uniqueCountries two_countries_shuffled.
Proof.
  apply (uniqueCountries_depends_on_values_only two_countries
           two_countries_shuffled).
  intros c. vm_compute. tauto.
Defined.

(** ** The requested range *)

(** X16.  The requested range always ends at 2025 and nothing checks that
    it is not empty: a request is issued with a start after 2025 exactly
    when some historical row of the country has a year of 2025 or later. *)
Theorem request_range_may_be_empty
  (st st' : App.State) (p : App.Pending) :
  App.handlePredictionToggle_begin true st = (st', Some p) ->
  App.prompt_to (App.req_prompt p) = 2025
  /\ (App.prompt_to (App.req_prompt p) < App.prompt_from (App.req_prompt p)
      <-> exists d, In d (App.countryData st) /\ 2025 <= year d).
Proof.
  intros Hb. apply begin_true_issued in Hb as (d & rest & E & ->).
  cbn [App.req_prompt App.prompt_from App.prompt_to].
  split; [reflexivity|]. rewrite E.
  destruct (math_max_years d rest) as [Hin Hub].
  apply in_map_iff in Hin as (r & Hm & Hr).
  split.
  - intros Hlt. exists r. split; [exact Hr|]. lia.
  - intros (d' & Hd' & Hy). specialize (Hub d' Hd'). lia.
Qed.

Lemma request_range_may_be_empty_witness :
  exists st' p,
    App.handlePredictionToggle_begin true (loaded beyond_horizon) = (st', Some p)
    /\ App.prompt_to (App.req_prompt p) = 2025
    /\ (App.prompt_to (App.req_prompt p) < App.prompt_from (App.req_prompt p)
        <-> exists d, In d (App.countryData (loaded beyond_horizon))
                      /\ 2025 <= year d)
    /\ App.prompt_from (App.req_prompt p) = 2031.
Proof.
  destruct (App.handlePredictionToggle_begin true (loaded beyond_horizon))
    as [st' [p|]] eqn:Hb; [|vm_compute in Hb; discriminate].
  exists st', p. split; [reflexivity|].
  destruct (request_range_may_be_empty (loaded beyond_horizon) st' p Hb)
    as [Hto Hiff].
  split; [exact Hto|]. split; [exact Hiff|].
  vm_compute in Hb. injection Hb as _ <-. reflexivity.
Defined.

(** ** The dataset between loads *)

(** X17.  Only a load that returns parsed rows changes the dataset and the
    list of countries: clicks, selections, retries, failed loads and
    answers of the oracle leave both as they are. *)
Theorem dataset_changes_only_on_load
  (e : Session.Event) (s s' : Session.Sys) :
  Session.step e s = Some s' ->
  is_successful_load e = false ->
  App.originalData (Session.view s') = App.originalData (Session.view s)
  /\ App.countries (Session.view s') = App.countries (Session.view s).
Proof.
  intros Hstep Hnl.
  apply step_inversion in Hstep as (after & pending & -> & Hcase).
  destruct (commit_view_frame (Session.view s) after pending)
    as (_ & -> & -> & _).
  destruct e as [o| | |c|k o].
  - destruct Hcase as (_ & _ & -> & _).
    destruct o; try discriminate; split; reflexivity.
  - destruct Hcase as (_ & _ & -> & _). split; reflexivity.
  - destruct Hcase as (_ & -> & _).
    destruct (App.showPrediction (Session.view s)); cbn [negb].
    + rewrite begin_false_eq. split; reflexivity.
    + destruct (begin_true_frame (Session.view s)) as (_ & Ho & _ & Hc & _).
      now split.
  - destruct Hcase as (_ & _ & -> & _). split; reflexivity.
  - destruct Hcase as (p & _ & -> & _).
    destruct (resume_frame p o (Session.view s)) as (Ho & _ & Hc & _).
    now split.
Qed.

Lemma dataset_changes_only_on_load_witness :
  let s := sys_after first_answer_merged in
  let s' := sys_after unchecked_with_pending_call in
  App.originalData (Session.view s') = App.originalData (Session.view s)
  /\ App.countries (Session.view s') = App.countries (Session.view s).
Proof.
  intros s s'.
  assert (Hstep : Session.step Session.ToggleClick s = Some s')
    by (vm_compute; reflexivity).
  exact (dataset_changes_only_on_load Session.ToggleClick s s' Hstep eq_refl).
Defined.

(** ** When requests are issued, and how they drain *)

(** X18.  The number of pending oracle calls grows only on a click on the
    checkbox or a selection in the selector, made while the controls are
    enabled (no load under way, no message displayed, busy flag clear):
    loads, retries and answers never issue a request. *)
Theorem requests_only_from_enabled_controls
  (e : Session.Event) (s s' : Session.Sys) :
  Session.step e s = Some s' ->
  (List.length (Session.inflight s) < List.length (Session.inflight s'))%nat ->
  Session.controls_enabled (Session.view s) = true
  /\ (e = Session.ToggleClick \/ exists c, e = Session.SelectCountry c).
Proof.
  intros Hstep Hgrow.
  pose proof Hstep as Hinv.
  apply step_inversion in Hinv as (after & pending & Hs' & Hcase).
  destruct e as [o| | |c|k o].
  - exfalso. destruct Hcase as (_ & _ & -> & ->).
    destruct (fetch_end_frame o (Session.view s)) as (Hc & Hp & _).
    rewrite commit_quiet in Hs' by (rewrite deps_unchanged; auto).
    subst s'. cbn [Session.inflight] in Hgrow. lia.
  - exfalso. destruct Hcase as (_ & _ & -> & ->).
    rewrite commit_quiet in Hs' by (rewrite deps_unchanged; reflexivity).
    subst s'. cbn [Session.inflight] in Hgrow. lia.
  - destruct Hcase as (Hen & _). split; [exact Hen|now left].
  - destruct Hcase as (Hen & _). split; [exact Hen|]. right. now exists c.
  - exfalso. destruct Hcase as (p & Hp & -> & ->).
    rewrite commit_quiet in Hs' by apply resume_quiet.
    subst s'. cbn [Session.inflight] in Hgrow.
    pose proof (drop_nth_length k _ p Hp). lia.
Qed.

Lemma requests_only_from_enabled_controls_witness :
  let s := sys_after first_answer_merged in
  exists s',
    Session.step (Session.SelectCountry "Chile") s = Some s'
    /\ (List.length (Session.inflight s) < List.length (Session.inflight s'))%nat
    /\ Session.controls_enabled (Session.view s) = true
    /\ (Session.SelectCountry "Chile" = Session.ToggleClick
        \/ exists c, Session.SelectCountry "Chile" = Session.SelectCountry c).
Proof.
  intros s.
  destruct (Session.step (Session.SelectCountry "Chile") s) as [s'|] eqn:Hstep;
    [|vm_compute in Hstep; discriminate].
  assert (Hgrow : (List.length (Session.inflight s)
                   < List.length (Session.inflight s'))%nat).
  { vm_compute in Hstep. injection Hstep as <-. vm_compute. lia. }
  exists s'. split; [reflexivity|]. split; [exact Hgrow|].
  exact (requests_only_from_enabled_controls _ s s' Hstep Hgrow).
Defined.

(** X19.  Answering the pending calls one after the other, with whatever
    outcomes, always succeeds and empties the set of pending calls; when
    there was at least one, the busy flag ends cleared.  The dataset and
    the selected country are as before. *)
Theorem answers_drain_pending_calls
  (outcomes : list App.OracleOutcome) (s : Session.Sys) :
  List.length outcomes = List.length (Session.inflight s) ->
  exists s',
    Session.run (map (Session.OracleReturns 0) outcomes) s = Some s'
    /\ Session.inflight s' = []
    /\ (outcomes <> [] -> App.predicting (Session.view s') = false)
    /\ App.originalData (Session.view s') = App.originalData (Session.view s)
    /\ App.selectedCountry (Session.view s') = App.selectedCountry (Session.view s).
Proof.
  revert s. induction outcomes as [|o os IH]; intros s Hlen.
  - exists s. cbn [map Session.run]. split; [reflexivity|].
    split; [|split; [now intros H|split; reflexivity]].
    destruct (Session.inflight s); [reflexivity|discriminate].
  - destruct (Session.inflight s) as [|p ps] eqn:E; [discriminate|].
    cbn [map Session.run]. unfold Session.step. rewrite E. cbn [nth_error].
    rewrite commit_quiet by apply resume_quiet.
    set (s1 := Session.mkSys
                 (App.handlePredictionToggle_resume p o (Session.view s))
                 (Session.drop_nth 0 (p :: ps))).
    assert (Hlen1 : List.length os = List.length (Session.inflight s1)).
    { cbn [s1 Session.inflight Session.drop_nth firstn skipn app].
      cbn [List.length] in Hlen. lia. }
    destruct (IH s1 Hlen1) as (s' & Hrun & Hnil & Hbusy & Ho & Hc).
    exists s'. split; [exact Hrun|]. split; [exact Hnil|].
    destruct (resume_frame p o (Session.view s)) as (Ho1 & Hc1 & _ & Hb1).
    split; [|split].
    + intros _. destruct os as [|o' os'].
      * cbn [map Session.run] in Hrun. injection Hrun as <-. exact Hb1.
      * apply Hbusy. discriminate.
    + rewrite Ho. exact Ho1.
    + rewrite Hc. exact Hc1.
Qed.

Lemma answers_drain_pending_calls_witness :
  let s := sys_after box_checked in
  let outcomes := [ App.Rejected App.ThrownOther;
                    App.Decoded (App.JArray batch_2008_2025) ] in
  exists s',
    Session.run (map (Session.OracleReturns 0) outcomes) s = Some s'
    /\ Session.inflight s' = []
    /\ (outcomes <> [] -> App.predicting (Session.view s') = false)
    /\ App.originalData (Session.view s') = App.originalData (Session.view s)
    /\ App.selectedCountry (Session.view s') = App.selectedCountry (Session.view s).
Proof.
  intros s outcomes.
  assert (Hlen : List.length outcomes = List.length (Session.inflight s))
    by (vm_compute; reflexivity).
  exact (answers_drain_pending_calls outcomes s Hlen).
Defined.
